(** * clay.py: the test-suite generator of Clay, embedded in Rocq

    The development follows the layout of [clay.py]:
    - [Py]: the few operations on Python strings the script relies on;
    - [Re]: the fragment of Python's [re] module that [TEST_FUNC_REGEX]
      uses, as a backtracking matcher;
    - the templates, [ClayTestBuilder] and its methods;
    - the properties of the discovery and registration pipeline. *)

From Stdlib Require Import String Ascii DecimalString.
From Stdlib Require Import List Arith Lia Bool Sorted.
Import ListNotations.
Open Scope string_scope.
Open Scope list_scope.
Open Scope nat_scope.

Infix "+++" := String.append (right associativity, at level 60).

(** ** Python strings *)

Module Py.

(** Characters that cannot be written inside a string literal here. *)
Definition dq : string := String "034"%char EmptyString.
Definition nl : string := String "010"%char EmptyString.
Definition tab : string := String "009"%char EmptyString.

Definition chars (s : string) : list ascii := list_ascii_of_string s.
Definition str (l : list ascii) : string := string_of_list_ascii l.

(** The character classes of a byte pattern, as under Python 2, for which
    the script was written: [\s] is [ \t\n\r\f\v] and [\w] is
    [a-zA-Z0-9_]. Text is ASCII throughout this development; the wider
    classes Python 3 gives to a [str] pattern are not modelled. *)
Definition is_space (c : ascii) : bool :=
  let n := nat_of_ascii c in (n =? 32) || ((9 <=? n) && (n <=? 13)).

Definition is_alpha (c : ascii) : bool :=
  let n := nat_of_ascii c in
  ((65 <=? n) && (n <=? 90)) || ((97 <=? n) && (n <=? 122)).

Definition is_digit (c : ascii) : bool :=
  let n := nat_of_ascii c in (48 <=? n) && (n <=? 57).

Definition is_word (c : ascii) : bool :=
  is_alpha c || is_digit c || (c =? "_")%char.

(** ["%d" % n] for a length. *)
Definition str_of_nat (n : nat) : string :=
  NilEmpty.string_of_uint (Nat.to_uint n).

(** [sep.join(ls)] *)
Definition join (sep : string) (ls : list string) : string :=
  String.concat sep ls.

(** [s.endswith(suffix)] *)
Definition endswith (s suffix : string) : bool :=
  let n := String.length s in
  let k := String.length suffix in
  (k <=? n) && String.eqb (substring (n - k) k s) suffix.

(** [s[:-k]] *)
Definition drop_last (k : nat) (s : string) : string :=
  substring 0 (String.length s - k) s.

(** [s.replace(old, new)] for a one-character [old]. *)
Fixpoint replace (old : ascii) (new : string) (s : string) : string :=
  match s with
  | EmptyString => EmptyString
  | String c s' =>
      if (c =? old)%char then new +++ replace old new s'
      else String c (replace old new s')
  end.

(** [s.lstrip()], on the characters. *)
Fixpoint lstrip_chars (l : list ascii) : list ascii :=
  match l with
  | c :: l' => if is_space c then lstrip_chars l' else l
  | [] => []
  end.

(** [s.strip()] *)
Definition strip (s : string) : string :=
  str (rev (lstrip_chars (rev (lstrip_chars (chars s))))).

End Py.

(** ** The fragment of [re] used by [TEST_FUNC_REGEX]

    A pattern is matched by backtracking. [run r prev s caps] lists, in the
    order in which the backtracking engine tries them, every way [r] can
    match a prefix of [s]: the text consumed and the capture groups set so
    far. [prev] is the character before the current position, for [^].
    The match [re] reports is the first of the list. *)

Module Re.

Definition text := list ascii.

Inductive regex : Type :=
| Eps
| Bol                          (* [^] under [re.MULTILINE] *)
| Chr (p : ascii -> bool)      (* a literal, [.], [\s] or [\w] *)
| Cat (r1 r2 : regex)
| Opt (r : regex)              (* greedy [r?] *)
| Star (p : ascii -> bool)     (* greedy [c*] on a character class *)
| Grp (n : nat) (r : regex).   (* capturing group number [n] *)

Definition captures := list (nat * text).

Definition at_bol (prev : option ascii) : bool :=
  match prev with
  | None => true
  | Some c => (c =? "010")%char
  end.

Definition last_of (prev : option ascii) (m : text) : option ascii :=
  fold_left (fun _ c => Some c) m prev.

(** The prefixes of the longest run of [p], longest first. *)
Fixpoint star_runs (p : ascii -> bool) (s : text) : list text :=
  match s with
  | c :: s' => if p c then map (cons c) (star_runs p s') ++ [[]] else [[]]
  | [] => [[]]
  end.

Fixpoint run (r : regex) (prev : option ascii) (s : text) (caps : captures)
  : list (text * captures) :=
  match r with
  | Eps => [([], caps)]
  | Bol => if at_bol prev then [([], caps)] else []
  | Chr p =>
      match s with
      | c :: _ => if p c then [([c], caps)] else []
      | [] => []
      end
  | Cat r1 r2 =>
      flat_map
        (fun '(m1, caps1) =>
           map (fun '(m2, caps2) => (m1 ++ m2, caps2))
               (run r2 (last_of prev m1) (skipn (length m1) s) caps1))
        (run r1 prev s caps)
  | Opt r' => run r' prev s caps ++ [([], caps)]
  | Star p => map (fun m => (m, caps)) (star_runs p s)
  | Grp n r' => map (fun '(m, caps') => (m, (n, m) :: caps')) (run r' prev s caps)
  end.

(** [pattern.match] at one position. *)
Definition match_here (r : regex) (prev : option ascii) (s : text)
  : option (text * captures) :=
  hd_error (run r prev s []).

(** [m.group(n)], with the empty string for a group that took no part,
    as [findall] reports it. *)
Fixpoint group (n : nat) (caps : captures) : text :=
  match caps with
  | (k, m) :: caps' => if k =? n then m else group n caps'
  | [] => []
  end.

(** [pattern.findall]: scan from left to right; after a match, resume at
    its end. [skip] counts the characters still covered by the last
    match. (After an empty match the scan moves on by one character.) *)
Fixpoint findall_from (r : regex) (prev : option ascii) (s : text) (skip : nat)
  {struct s} : list captures :=
  match skip with
  | S k =>
      match s with
      | c :: s' => findall_from r (Some c) s' k
      | [] => []
      end
  | O =>
      match match_here r prev s with
      | Some (m, caps) =>
          caps ::
            match s with
            | c :: s' => findall_from r (Some c) s' (length m - 1)
            | [] => []
            end
      | None =>
          match s with
          | c :: s' => findall_from r (Some c) s' 0
          | [] => []
          end
      end
  end.

Definition findall (r : regex) (s : text) : list captures :=
  findall_from r None s 0.

(** Pattern builders. *)
Definition chr (c : ascii) : regex := Chr (Ascii.eqb c).
Definition dot : regex := Chr (fun c => negb (c =? "010")%char).
Definition plus (p : ascii -> bool) : regex := Cat (Chr p) (Star p).

Fixpoint seq (rs : list regex) : regex :=
  match rs with
  | [] => Eps
  | r :: rs' => Cat r (seq rs')
  end.

Definition lit (s : string) : regex := seq (map chr (Py.chars s)).

(** The characters that are operators of the pattern language. *)
Definition is_special (c : ascii) : bool :=
  existsb (Ascii.eqb c) (Py.chars ".^$*+?{}[]\|()").

(** What it is for a pattern to match a text [m] that comes after the
    character [prev], turning the captures [caps] into [caps']: the
    matches that [run] enumerates. *)
Inductive matches : regex -> option ascii -> text -> captures -> captures -> Prop :=
| m_eps prev caps :
    matches Eps prev [] caps caps
| m_bol prev caps :
    at_bol prev = true -> matches Bol prev [] caps caps
| m_chr p prev c caps :
    p c = true -> matches (Chr p) prev [c] caps caps
| m_cat r1 r2 prev m1 m2 caps caps1 caps2 :
    matches r1 prev m1 caps caps1 ->
    matches r2 (last_of prev m1) m2 caps1 caps2 ->
    matches (Cat r1 r2) prev (m1 ++ m2) caps caps2
| m_opt_taken r prev m caps caps' :
    matches r prev m caps caps' -> matches (Opt r) prev m caps caps'
| m_opt_skipped r prev caps :
    matches (Opt r) prev [] caps caps
| m_star p prev m caps :
    Forall (fun c => p c = true) m -> matches (Star p) prev m caps caps
| m_grp n r prev m caps caps' :
    matches r prev m caps caps' -> matches (Grp n r) prev m caps ((n, m) :: caps').

End Re.

(** ** Constants and templates of [clay.py] *)

Definition VERSION : string := "0.7.0".

(** One regex match as [findall] returns it: the four groups
    [(declaration, symbol, short_name, _)]. *)
Definition groups : Type := string * string * string * string.

(** The pattern of [TEST_FUNC_REGEX % test_name]. The name is spliced into
    the pattern as it is: a [.] in it is the any-character operator, and
    every character that is no operator stands for itself. A name with
    another operator in it is outside the fragment of [Re]: [None]. *)
Definition name_atom (c : ascii) : option Re.regex :=
  if (c =? ".")%char then Some Re.dot
  else if Re.is_special c then None
  else Some (Re.chr c).

Fixpoint name_pattern (l : list ascii) : option (list Re.regex) :=
  match l with
  | [] => Some []
  | c :: l' =>
      match name_atom c, name_pattern l' with
      | Some a, Some rs => Some (a :: rs)
      | _, _ => None
      end
  end.

(** [^(void\s+(test_%s__(\w+))\(\s*(void)?\s*\))\s*\{] *)
Definition test_func_pattern (name : list Re.regex) : Re.regex :=
  Re.seq
    [ Re.Bol;
      Re.Grp 1 (Re.seq
        [ Re.lit "void"; Re.plus Py.is_space;
          Re.Grp 2 (Re.seq
            [ Re.lit "test_"; Re.seq name; Re.lit "__";
              Re.Grp 3 (Re.plus Py.is_word) ]);
          Re.chr "("; Re.Star Py.is_space;
          Re.Opt (Re.Grp 4 (Re.lit "void"));
          Re.Star Py.is_space; Re.chr ")" ]);
      Re.Star Py.is_space; Re.chr "{" ].

Definition TEST_FUNC_REGEX (test_name : string) : option Re.regex :=
  option_map test_func_pattern (name_pattern (Py.chars test_name)).

Definition groups_of (caps : Re.captures) : groups :=
  (Py.str (Re.group 1 caps), Py.str (Re.group 2 caps),
   Py.str (Re.group 3 caps), Py.str (Re.group 4 caps)).

(** [re.compile(TEST_FUNC_REGEX % test_name, re.MULTILINE).findall(contents)] *)
Definition regex_findall (test_name contents : string) : option (list groups) :=
  option_map (fun r => map groups_of (Re.findall r (Py.chars contents)))
             (TEST_FUNC_REGEX test_name).

(** The keyword arguments of [TEMPLATE_MAIN.substitute]. *)
Record main_args : Type := {
  a_version : string;
  a_clay_print : string;
  a_clay_library : string;
  a_extern_declarations : string;
  a_suites_str : string;
  a_test_callbacks : string;
  a_cb_count : nat;
  a_test_suites : string;
  a_suite_count : nat
}.

Definition TEMPLATE_MAIN_substitute (a : main_args) : string :=
  Py.join Py.nl
    [ "";
      "/*";
      " * Clay v" +++ a_version a;
      " *";
      " * This is an autogenerated file. Do not modify.";
      " * To add new unit tests or suites, regenerate the whole";
      " * file with `./clay`";
      " */";
      "";
      "#define clay_print(...) " +++ a_clay_print a;
      "";
      a_clay_library a;
      "";
      a_extern_declarations a;
      "";
      "static const struct clay_func _all_callbacks[] = {";
      "    " +++ a_test_callbacks a;
      "};";
      "";
      "static const struct clay_suite _all_suites[] = {";
      "    " +++ a_test_suites a;
      "};";
      "";
      "static const char _suites_str[] = " +++ Py.dq +++ a_suites_str a
        +++ Py.dq +++ ";";
      "";
      "int main(int argc, char *argv[])";
      "{";
      "    return clay_test(";
      "        argc, argv, _suites_str,";
      "        _all_callbacks, " +++ Py.str_of_nat (a_cb_count a) +++ ",";
      "        _all_suites, " +++ Py.str_of_nat (a_suite_count a);
      "    );";
      "}";
      "" ].

Definition TEMPLATE_SUITE_substitute
  (clean_name initialize cleanup cb_ptr : string) (cb_count : nat) : string :=
  Py.join Py.nl
    [ "";
      "    {";
      "        " +++ Py.dq +++ clean_name +++ Py.dq +++ ",";
      "        " +++ initialize +++ ",";
      "        " +++ cleanup +++ ",";
      "        " +++ cb_ptr +++ ", " +++ Py.str_of_nat cb_count;
      "    }";
      "" ].

(** The hook of a suite that has none. *)
Definition NULL_FUNC : string := "{NULL, NULL, 0}".

(** ['{"%s", &%s, %d}' % (short_name, symbol, n)] *)
Definition func_ptr (short_name symbol : string) (n : nat) : string :=
  "{" +++ Py.dq +++ short_name +++ Py.dq +++ ", &" +++ symbol +++ ", "
      +++ Py.str_of_nat n +++ "}".

(** ["extern %s;" % declaration] *)
Definition extern_decl (declaration : string) : string :=
  "extern " +++ declaration +++ ";".

(** ** The builder *)

(** What [_process_test_file] passes to [TEMPLATE_SUITE.substitute] for one
    suite. The script keeps the substituted text only; the builder below
    also records the arguments, in [suite_records], to state properties of
    offsets and counts. *)
Record Suite : Type := {
  clean_name : string;
  initialize : string;
  cleanup : string;
  cb_offset : nat;       (* the index in ["&_all_callbacks[%d]"] *)
  cb_count : nat
}.

Definition render_suite (s : Suite) : string :=
  Py.strip
    (TEMPLATE_SUITE_substitute
       (clean_name s) (initialize s) (cleanup s)
       ("&_all_callbacks[" +++ Py.str_of_nat (cb_offset s) +++ "]")
       (cb_count s)).

Record ClayTestBuilder : Type := {
  declarations : list string;
  callbacks : list string;
  suites : list string;
  suite_list : list string;
  clay_path : option string;
  print_mode : string;
  output : string;
  output_header : string;
  modules : list string;
  suite_records : list Suite   (* not in the script: see [Suite] *)
}.

Inductive error : Type :=
| NoTestsFound (folder_name : string)  (* RuntimeError('No tests found under ...') *)
| PatternError                         (* [re] raised on the pattern of a group name *)
| KeyError (key : string)
| IOError (path : string).

Inductive result (A : Type) : Type :=
| Ok (a : A)
| Raise (e : error).
Arguments Ok {A} a.
Arguments Raise {A} e.

Definition bind {A B : Type} (r : result A) (k : A -> result B) : result B :=
  match r with
  | Ok a => k a
  | Raise e => Raise e
  end.

Notation "x <- r ;; k" := (bind r (fun x => k))
  (at level 61, r at next level, right associativity).

(** A directory tree on disk. The order of [entries] is the order in which
    the operating system lists the directory. Every file of the tree can
    be read: a failing [open(full_path)] or [f.read()] is not modelled. *)
#[warning="-register-all"]
Inductive node : Type :=
| File (contents : string)
| Dir (entries : list (string * node)).

(** [os.walk(top)], top-down: a directory yields its own
    [(root, dirs, files)] before its sub-directories are walked. [root] is
    kept relative to the scan root, as the list of directory names, and a
    file comes with its text. *)
Definition walk_item : Type :=
  list string * list string * list (string * string).

Definition dirs_of (entries : list (string * node)) : list string :=
  flat_map (fun '(name, n) => match n with Dir _ => [name] | File _ => [] end)
           entries.

Definition files_of (entries : list (string * node)) : list (string * string) :=
  flat_map (fun '(name, n) => match n with File c => [(name, c)] | Dir _ => [] end)
           entries.

Fixpoint os_walk (root : list string) (top : node) : list walk_item :=
  match top with
  | File _ => []
  | Dir entries =>
      (root, dirs_of entries, files_of entries) ::
      flat_map (fun '(name, n) =>
                  match n with
                  | File _ => []
                  | Dir _ => os_walk (root ++ [name]) n
                  end)
               entries
  end.

(** [os.path.join(a, b)] for a relative, non-empty [b]. *)
Definition path_join (a b : string) : string :=
  if String.eqb a "" then b
  else if Py.endswith a "/" then a +++ b
  else a +++ "/" +++ b.

(** [fnmatch.filter(files, "*.c")], on a system where file names are
    case-sensitive. *)
Definition fnmatch_c (name : string) : bool := Py.endswith name ".c".

(** ["_".join(module_root + [test_file[:-2]])] *)
Definition test_name_of (module_root : list string) (test_file : string) : string :=
  Py.join "_" (module_root ++ [Py.drop_last 2 test_file]).

Section Builder.

(** [regex.findall(contents)] for the pattern of [test_name]; [None]
    when compiling or running the pattern raises. The builder is given
    over any such matcher; the one of the script is [regex_findall],
    which is [None] where the pattern leaves the fragment of [Re]. *)
Variable findall_tests : string -> string -> option (list groups).

(** The variables of the loop of [_process_test_file]. *)
Record loop_vars : Type := {
  l_declarations : list string;
  l_callbacks : list string;
  l_initialize : string;
  l_cleanup : string
}.

Definition loop_body (n_suites : nat) (v : loop_vars) (m : groups) : loop_vars :=
  let '(declaration, symbol, short_name, _) := m in
  let decls := l_declarations v ++ [extern_decl declaration] in
  let fp := func_ptr short_name symbol n_suites in
  if String.eqb short_name "initialize" then
    {| l_declarations := decls; l_callbacks := l_callbacks v;
       l_initialize := fp; l_cleanup := l_cleanup v |}
  else if String.eqb short_name "cleanup" then
    {| l_declarations := decls; l_callbacks := l_callbacks v;
       l_initialize := l_initialize v; l_cleanup := fp |}
  else
    {| l_declarations := decls; l_callbacks := l_callbacks v ++ [fp];
       l_initialize := l_initialize v; l_cleanup := l_cleanup v |}.

Definition _process_test_file
  (self : ClayTestBuilder) (test_name contents : string)
  : result ClayTestBuilder :=
  match findall_tests test_name contents with
  | None => Raise PatternError
  | Some ms =>
      let v := fold_left (loop_body (length (suites self))) ms
                 {| l_declarations := declarations self; l_callbacks := [];
                    l_initialize := NULL_FUNC; l_cleanup := NULL_FUNC |} in
      match l_callbacks v with
      | [] =>
          Ok {| declarations := l_declarations v;
                callbacks := callbacks self;
                suites := suites self;
                suite_list := suite_list self;
                clay_path := clay_path self;
                print_mode := print_mode self;
                output := output self;
                output_header := output_header self;
                modules := modules self;
                suite_records := suite_records self |}
      | _ :: _ =>
          let name := Py.replace "_" "::" test_name in
          let suite := {| clean_name := name;
                          initialize := l_initialize v;
                          cleanup := l_cleanup v;
                          cb_offset := length (callbacks self);
                          cb_count := length (l_callbacks v) |} in
          Ok {| declarations := l_declarations v;
                callbacks := callbacks self ++ l_callbacks v;
                suites := suites self ++ [render_suite suite];
                suite_list := suite_list self ++ [name];
                clay_path := clay_path self;
                print_mode := print_mode self;
                output := output self;
                output_header := output_header self;
                modules := modules self;
                suite_records := suite_records self ++ [suite] |}
      end
  end.

(** The files of the scan in the order in which [__init__] reads them,
    each with its group name. *)
Definition tests_of_item (item : walk_item) : list (string * string) :=
  let '(root, _, files) := item in
  let module_root := filter (fun c => negb (String.eqb c "")) root in
  map (fun '(test_file, contents) => (test_name_of module_root test_file, contents))
      (filter (fun '(test_file, _) => fnmatch_c test_file) files).

Definition scan (top : node) : list (string * string) :=
  flat_map tests_of_item (os_walk [] top).

Fixpoint process_all (self : ClayTestBuilder) (tests : list (string * string))
  : result ClayTestBuilder :=
  match tests with
  | [] => Ok self
  | (test_name, contents) :: tests' =>
      self' <- _process_test_file self test_name contents ;;
      process_all self' tests'
  end.

(** The attributes [__init__] sets before it walks the tree. *)
Definition fresh
  (folder_name : string) (output_folder clay_path : option string)
  (print_mode : string) : ClayTestBuilder :=
  let output_folder :=
    match output_folder with
    | None => folder_name
    | Some o => if String.eqb o "" then folder_name else o
    end in
  {| declarations := []; callbacks := []; suites := []; suite_list := [];
     clay_path := clay_path; print_mode := print_mode;
     output := path_join output_folder "clay_main.c";
     output_header := path_join output_folder "clay.h";
     modules := ["clay.c"; "clay_sandbox.c"];
     suite_records := [] |}.

(** [ClayTestBuilder.__init__]; [top] is the tree found at [folder_name]. *)
Definition __init__
  (folder_name : string) (top : node)
  (output_folder clay_path : option string) (print_mode : string)
  : result ClayTestBuilder :=
  self <- process_all (fresh folder_name output_folder clay_path print_mode)
                      (scan top) ;;
  match suites self with
  | [] => Raise (NoTestsFound folder_name)
  | _ :: _ => Ok self
  end.

(** What the script reads besides the scan root: the files of a support
    library given with [--clay-path], and the texts bundled in
    [CLAY_FILES], already decoded. *)
Record environment : Type := {
  read_file : string -> option string;
  CLAY_FILES : string -> string
}.

(** What [render] does to the files it writes. *)
Inductive event : Type :=
| FileOpen (path : string)             (* [open(path, "w")]: created or emptied *)
| FileWrite (path : string) (data : string).

Definition _get_print_method (self : ClayTestBuilder) : result string :=
  if String.eqb (print_mode self) "stdout" then Ok "printf(__VA_ARGS__)"
  else if String.eqb (print_mode self) "stderr" then Ok "fprintf(stderr, __VA_ARGS__)"
  else if String.eqb (print_mode self) "silent" then Ok ""
  else Raise (KeyError (print_mode self)).

Definition configured (p : option string) : option string :=
  match p with
  | Some d => if String.eqb d "" then None else Some d
  | None => None
  end.

Definition _load_file (env : environment) (self : ClayTestBuilder)
  (filename : string) : result string :=
  match configured (clay_path self) with
  | Some d =>
      let filename := path_join d filename in
      match read_file env filename with
      | Some text => Ok text
      | None => Raise (IOError filename)
      end
  | None => Ok (CLAY_FILES env filename)
  end.

Fixpoint load_all (env : environment) (self : ClayTestBuilder)
  (fs : list string) : result (list string) :=
  match fs with
  | [] => Ok []
  | f :: fs' =>
      t <- _load_file env self f ;;
      ts <- load_all env self fs' ;;
      Ok (t :: ts)
  end.

Definition _get_library (env : environment) (self : ClayTestBuilder)
  : result string :=
  ts <- load_all env self (modules self) ;;
  Ok (Py.join Py.nl ts).

Definition main_args_of (self : ClayTestBuilder) (clay_print clay_library : string)
  : main_args :=
  {| a_version := VERSION;
     a_clay_print := clay_print;
     a_clay_library := clay_library;
     a_extern_declarations := Py.join Py.nl (declarations self);
     a_suites_str := Py.join ", " (suite_list self);
     a_test_callbacks := Py.join ("," +++ Py.nl +++ Py.tab) (callbacks self);
     a_cb_count := length (callbacks self);
     a_test_suites := Py.join ("," +++ Py.nl +++ Py.tab) (suites self);
     a_suite_count := length (suites self) |}.

(** [render]: the events on the output files, and how the call ends.
    Opening and writing the two output files is taken to succeed: only
    the print mode and the library files can make the call fail. *)
Definition render (env : environment) (self : ClayTestBuilder)
  : list event * result unit :=
  match (clay_print <- _get_print_method self ;;
         clay_library <- _get_library env self ;;
         Ok (TEMPLATE_MAIN_substitute (main_args_of self clay_print clay_library)))
  with
  | Raise e => ([], Raise e)
  | Ok template =>
      let written := [FileOpen (output self); FileWrite (output self) template] in
      match _load_file env self "clay.h" with
      | Raise e => (written ++ [FileOpen (output_header self)], Raise e)
      | Ok header =>
          (written ++ [FileOpen (output_header self);
                       FileWrite (output_header self) header], Ok tt)
      end
  end.

(** One turn of the loop of [main]: build, then render. *)
Definition main_folder (env : environment)
  (output_folder clay_path : option string) (print_mode : string)
  (folder_name : string) (top : node) : list event * result unit :=
  match __init__ folder_name top output_folder clay_path print_mode with
  | Raise e => ([], Raise e)
  | Ok builder => render env builder
  end.

(** [main], for the folders given on the command line. *)
Fixpoint main (env : environment)
  (output_folder clay_path : option string) (print_mode : string)
  (args : list (string * node)) : list event * result unit :=
  match args with
  | [] => ([], Ok tt)
  | (folder_name, top) :: args' =>
      match main_folder env output_folder clay_path print_mode folder_name top with
      | (evs, Raise e) => (evs, Raise e)
      | (evs, Ok _) =>
          let '(evs', r) := main env output_folder clay_path print_mode args' in
          (evs ++ evs', r)
      end
  end.

End Builder.

(** ** Vocabulary of the properties *)

Definition declaration_of (m : groups) : string := let '(d, _, _, _) := m in d.
Definition symbol_of (m : groups) : string := let '(_, s, _, _) := m in s.
Definition short_name_of (m : groups) : string := let '(_, _, n, _) := m in n.

Definition is_initialize (m : groups) : bool :=
  String.eqb (short_name_of m) "initialize".
Definition is_cleanup (m : groups) : bool :=
  String.eqb (short_name_of m) "cleanup".
Definition is_ordinary (m : groups) : bool :=
  negb (is_initialize m) && negb (is_cleanup m).

(** The table entry of a match found while [n] suites exist. *)
Definition ptr_of (n : nat) (m : groups) : string :=
  func_ptr (short_name_of m) (symbol_of m) n.

(** The part of the callback table a suite points at. *)
Definition window (s : Suite) (cbs : list string) : list string :=
  firstn (cb_count s) (skipn (cb_offset s) cbs).

(** Letters, digits and underscores only. *)
Definition identifier (s : string) : Prop :=
  Forall (fun c => Py.is_word c = true) (Py.chars s).

(** The declarations the specification describes. [declares G s g n]: the
    text [s] starts with a function that returns [void], is named
    [test_G__] and a short name, a run of word characters, takes nothing
    or [void], and is followed by an opening brace; [g] has the
    declaration up to its closing parenthesis, the name, the short name
    and the [void] between the parentheses if any; [n] characters lead
    through the brace. White space may separate [void] from the name (it
    must), the parentheses from what they hold, and the declaration from
    the brace. *)
Definition spaces (l : Re.text) : Prop :=
  Forall (fun c => Py.is_space c = true) l.

Definition word (l : Re.text) : Prop :=
  l <> [] /\ Forall (fun c => Py.is_word c = true) l.

Definition declares (G : string) (s : Re.text) (g : groups) (n : nat) : Prop :=
  exists ws1 short ws2 v ws3 ws4 tail,
    ws1 <> [] /\ spaces ws1 /\ word short /\
    spaces ws2 /\ (v = [] \/ v = Py.chars "void") /\ spaces ws3 /\ spaces ws4 /\
    let symbol := Py.chars "test_" ++ Py.chars G ++ Py.chars "__" ++ short in
    let decl := Py.chars "void" ++ ws1 ++ symbol
                ++ Py.chars "(" ++ ws2 ++ v ++ ws3 ++ Py.chars ")" in
    s = decl ++ ws4 ++ Py.chars "{" ++ tail /\
    g = (Py.str decl, Py.str symbol, Py.str short, Py.str v) /\
    n = length (decl ++ ws4 ++ Py.chars "{").

(** The character before position [p] of [s], itself after [prev]. *)
Definition before (prev : option ascii) (s : Re.text) (p : nat) : option ascii :=
  match p with
  | O => prev
  | S k => nth_error s k
  end.

(** A declaration of group [G] begins a line at position [p] of [s]. *)
Definition declared_at (G : string) (prev : option ascii) (s : Re.text) (p : nat)
  : Prop :=
  Re.at_bol (before prev s p) = true /\ exists g n, declares G (skipn p s) g n.

(** [ms] is the sequence of the declarations of group [G] that begin a
    line of [contents], in the order of the text. *)
Definition matcher_spec (G : string) (contents : Re.text) (ms : list groups) : Prop :=
  exists ps,
    StronglySorted lt ps /\
    (forall p, In p ps <-> declared_at G None contents p) /\
    Forall2 (fun p g => exists n, declares G (skipn p contents) g n) ps ms.

(** [file_at top ds f c]: below [top], the directories [ds] lead to a file
    named [f] with text [c]. *)
Inductive file_at : node -> list string -> string -> string -> Prop :=
| file_here entries f c :
    In (f, File c) entries -> file_at (Dir entries) [] f c
| file_below entries d n ds f c :
    In (d, n) entries -> file_at n ds f c -> file_at (Dir entries) (d :: ds) f c.

(** The offsets and counts recorded so far tile the callback table. *)
Definition tiled (self : ClayTestBuilder) : Prop :=
  (forall i s, nth_error (suite_records self) i = Some s ->
     cb_offset s = list_sum (map cb_count (firstn i (suite_records self)))) /\
  list_sum (map cb_count (suite_records self)) = length (callbacks self) /\
  suites self = map render_suite (suite_records self).

(** The group of file [t] has a test that is no hook. *)
Definition has_ordinary
  (findall_tests : string -> string -> option (list groups))
  (t : string * string) : bool :=
  match findall_tests (fst t) (snd t) with
  | Some ms => existsb is_ordinary ms
  | None => false
  end.

(** The builder kept its configuration. *)
Definition same_config (a b : ClayTestBuilder) : Prop :=
  clay_path b = clay_path a /\ print_mode b = print_mode a /\
  output b = output a /\ output_header b = output_header a /\
  modules b = modules a.

(** The two listings of the root of scenario B. *)
Definition scenario_B (b_c c_c : string) (file_listed_first : bool) : node :=
  let a := ("a", Dir [("b.c", File b_c)]) in
  let c := ("c.c", File c_c) in
  Dir (if file_listed_first then [c; a] else [a; c]).

(** A worked example, scenario B of the specification: [a/b.c] holds two
    tests, [c.c] one test and an [initialize] hook. *)
Definition sample_b_c : string :=
  "void test_a_b__one(void)" +++ Py.nl +++ "{" +++ Py.nl +++ "}" +++ Py.nl
  +++ "void test_a_b__two( void ) {" +++ Py.nl +++ "}" +++ Py.nl.

Definition sample_c_c : string :=
  "void test_c__initialize(void) {}" +++ Py.nl
  +++ "void" +++ Py.nl +++ "test_c__x()" +++ Py.nl +++ "{}" +++ Py.nl.

Definition sample_tree : node := scenario_B sample_b_c sample_c_c false.

(** A support library at [/lib] whose header cannot be read. *)
Definition sample_env_no_header : environment :=
  {| read_file := fun p => if String.eqb p "/lib/clay.h" then None
                           else Some ("/* " +++ p +++ " */");
     CLAY_FILES := fun _ => "" |}.

(** A support library at [/lib] none of whose files can be read. *)
Definition sample_env_nothing : environment :=
  {| read_file := fun _ => None; CLAY_FILES := fun _ => "" |}.

(** A file whose name is no identifier. *)
Definition sample_tree_dash : node := Dir [("foo-bar.c", File "")].

(** A file with hooks and no test. *)
Definition sample_hooks_c : string :=
  "void test_h__initialize(void) {}" +++ Py.nl
  +++ "void test_h__cleanup(void) {}" +++ Py.nl.

(** A tree with a group of hooks only next to a group with a test. *)
Definition sample_tree_hooks : node :=
  Dir [("h.c", File sample_hooks_c); ("c.c", File sample_c_c)].

(** ** The comment helper of the builder *)





(** The print modes [_get_print_method] knows. *)
Definition known_print_mode (mode : string) : Prop :=
  mode = "stdout" \/ mode = "stderr" \/ mode = "silent".





(** [l1] is the beginning of [l2]. *)
Definition extends {A : Type} (l1 l2 : list A) : Prop :=
  exists more, l2 = l1 ++ more.

(** What the builder knows of the files [done] it has read: suite number
    [i] belongs to the [i]-th of them that has an ordinary test; its
    window of the callback table is the entries of the ordinary tests of
    that file, and these and its hooks are tagged [i]. *)
Definition owned
  (findall_tests : string -> string -> option (list groups))
  (done : list (string * string)) (self : ClayTestBuilder) : Prop :=
  length (suites self) = length (suite_records self) /\
  length (suite_records self) = length (filter (has_ordinary findall_tests) done) /\
  forall i s,
    nth_error (suite_records self) i = Some s ->
    1 <= cb_count s /\
    cb_offset s + cb_count s <= length (callbacks self) /\
    exists name contents ms,
      nth_error (filter (has_ordinary findall_tests) done) i = Some (name, contents) /\
      findall_tests name contents = Some ms /\
      clean_name s = Py.replace "_" "::" name /\
      window s (callbacks self) = map (ptr_of i) (filter is_ordinary ms) /\
      initialize s = last (map (ptr_of i) (filter is_initialize ms)) NULL_FUNC /\
      cleanup s = last (map (ptr_of i) (filter is_cleanup ms)) NULL_FUNC.




(** ** Properties of the builder *)

Lemma append_assoc (a b c : string) : (a +++ b) +++ c = a +++ (b +++ c).
Proof. induction a as [|x a IH]; [reflexivity|]. simpl. rewrite IH. reflexivity. Qed.




Section BuilderFacts.

Variable findall_tests : string -> string -> option (list groups).

Lemma last_cons_default {A : Type} (l : list A) : forall a d,
  last (a :: l) d = last l a.
Proof.
  induction l as [|b l IH]; intros a d; [reflexivity|].
  change (last (a :: b :: l) d) with (last (b :: l) d).
  rewrite (IH b d), (IH b a). reflexivity.
Qed.

Lemma loop_body_step n v m :
  loop_body n v m =
  {| l_declarations := l_declarations v ++ [extern_decl (declaration_of m)];
     l_callbacks :=
       l_callbacks v ++ (if is_ordinary m then [ptr_of n m] else []);
     l_initialize := if is_initialize m then ptr_of n m else l_initialize v;
     l_cleanup := if is_cleanup m then ptr_of n m else l_cleanup v |}.
Proof.
  destruct m as [[[d sy] sh] vd].
  unfold loop_body, is_ordinary, is_initialize, is_cleanup, ptr_of; simpl.
  destruct (String.eqb sh "initialize") eqn:Hi.
  - apply String.eqb_eq in Hi; subst sh. simpl. rewrite app_nil_r. reflexivity.
  - destruct (String.eqb sh "cleanup"); simpl; rewrite ?app_nil_r; reflexivity.
Qed.

Lemma loop_body_fold n ms : forall v,
  fold_left (loop_body n) ms v =
  {| l_declarations :=
       l_declarations v ++ map (fun m => extern_decl (declaration_of m)) ms;
     l_callbacks := l_callbacks v ++ map (ptr_of n) (filter is_ordinary ms);
     l_initialize := last (map (ptr_of n) (filter is_initialize ms)) (l_initialize v);
     l_cleanup := last (map (ptr_of n) (filter is_cleanup ms)) (l_cleanup v) |}.
Proof.
  induction ms as [|m ms IH]; intros v.
  - simpl. rewrite !app_nil_r. destruct v; reflexivity.
  - cbn [fold_left]. rewrite IH, loop_body_step. cbn [l_declarations l_callbacks
      l_initialize l_cleanup filter map].
    rewrite <- !app_assoc. f_equal.
    + destruct (is_ordinary m); reflexivity.
    + destruct (is_initialize m); cbn [map]; [|reflexivity].
      symmetry. apply last_cons_default.
    + destruct (is_cleanup m); cbn [map]; [|reflexivity].
      symmetry. apply last_cons_default.
Qed.

(** What one call of [_process_test_file] returns, by the matches found. *)
Lemma process_eq self name contents ms :
  findall_tests name contents = Some ms ->
  _process_test_file findall_tests self name contents =
  Ok (match filter is_ordinary ms with
      | [] =>
          {| declarations :=
               declarations self ++ map (fun m => extern_decl (declaration_of m)) ms;
             callbacks := callbacks self;
             suites := suites self;
             suite_list := suite_list self;
             clay_path := clay_path self;
             print_mode := print_mode self;
             output := output self;
             output_header := output_header self;
             modules := modules self;
             suite_records := suite_records self |}
      | _ :: _ =>
          let n := length (suites self) in
          let suite :=
            {| clean_name := Py.replace "_" "::" name;
               initialize := last (map (ptr_of n) (filter is_initialize ms)) NULL_FUNC;
               cleanup := last (map (ptr_of n) (filter is_cleanup ms)) NULL_FUNC;
               cb_offset := length (callbacks self);
               cb_count := length (filter is_ordinary ms) |} in
          {| declarations :=
               declarations self ++ map (fun m => extern_decl (declaration_of m)) ms;
             callbacks := callbacks self ++ map (ptr_of n) (filter is_ordinary ms);
             suites := suites self ++ [render_suite suite];
             suite_list := suite_list self ++ [Py.replace "_" "::" name];
             clay_path := clay_path self;
             print_mode := print_mode self;
             output := output self;
             output_header := output_header self;
             modules := modules self;
             suite_records := suite_records self ++ [suite] |}
      end).
Proof.
  intros Hm. unfold _process_test_file. rewrite Hm, loop_body_fold.
  cbn [l_declarations l_callbacks l_initialize l_cleanup app].
  destruct (filter is_ordinary ms) as [|m0 ms0]; [reflexivity|].
  cbn [map length]. rewrite length_map. reflexivity.
Qed.

Lemma process_inv self name contents b :
  _process_test_file findall_tests self name contents = Ok b ->
  exists ms, findall_tests name contents = Some ms.
Proof.
  unfold _process_test_file.
  destruct (findall_tests name contents) as [ms|]; [eauto|discriminate].
Qed.

(** A property kept by every call of [_process_test_file] holds after
    the whole scan. *)
Lemma process_all_preserves (P : ClayTestBuilder -> Prop) :
  (forall self name contents b,
      P self -> _process_test_file findall_tests self name contents = Ok b -> P b) ->
  forall tests self b,
    P self -> process_all findall_tests self tests = Ok b -> P b.
Proof.
  intros Hstep tests.
  induction tests as [|[name contents] tests IH]; intros self b HP Hrun.
  - simpl in Hrun. injection Hrun as <-. exact HP.
  - simpl in Hrun.
    destruct (_process_test_file findall_tests self name contents) as [self'|e] eqn:E;
      [|discriminate].
    simpl in Hrun. eapply IH; [|exact Hrun]. eapply Hstep; eauto.
Qed.

Lemma tiled_step self name contents b :
  tiled self -> _process_test_file findall_tests self name contents = Ok b -> tiled b.
Proof.
  intros (Hoff & Hsum & Hren) Hrun.
  destruct (process_inv _ _ _ _ Hrun) as [ms Hms].
  rewrite (process_eq _ _ _ _ Hms) in Hrun. injection Hrun as <-.
  destruct (filter is_ordinary ms) as [|m0 ms0] eqn:Eo.
  - repeat split; assumption.
  - unfold tiled. cbn [suite_records callbacks suites]. repeat split.
    + intros i s Hi.
      destruct (Nat.lt_ge_cases i (length (suite_records self))) as [Hlt|Hge].
      * rewrite nth_error_app1 in Hi by assumption.
        rewrite firstn_app.
        replace (i - length (suite_records self)) with 0 by lia.
        rewrite firstn_O, app_nil_r. auto.
      * rewrite nth_error_app2 in Hi by assumption.
        destruct (i - length (suite_records self)) as [|k] eqn:Ek.
        -- simpl in Hi. injection Hi as <-. cbn [cb_offset].
           assert (i = length (suite_records self)) as -> by lia.
           rewrite firstn_app, firstn_all, Nat.sub_diag, firstn_O, app_nil_r.
           symmetry. exact Hsum.
        -- simpl in Hi. destruct k; discriminate.
    + rewrite map_app, list_sum_app, length_app, length_map. cbn [map cb_count list_sum].
      rewrite Hsum. simpl. lia.
    + rewrite map_app, Hren. reflexivity.
Qed.


Lemma process_all_tiled folder out cp pm tests b :
  process_all findall_tests (fresh folder out cp pm) tests = Ok b -> tiled b.
Proof.
  apply (process_all_preserves tiled tiled_step).
  unfold tiled, fresh; simpl. repeat split; try reflexivity.
  intros [|i] s Hi; discriminate.
Qed.


Lemma process_all_raises tests : forall self e,
  process_all findall_tests self tests = Raise e -> e = PatternError.
Proof.
  induction tests as [|[name contents] tests IH]; intros self e H.
  - discriminate.
  - simpl in H.
    destruct (_process_test_file findall_tests self name contents) as [self'|e'] eqn:E.
    + simpl in H. eauto.
    + simpl in H. injection H as <-.
      unfold _process_test_file in E.
      destruct (findall_tests name contents); [|congruence].
      destruct (l_callbacks _); discriminate.
Qed.

(** C3. [__init__] raises the no-tests error exactly when the scan went
    through every file and left no suite; the run then ends there, with
    no file opened or written, and [main] goes no further. *)
Theorem no_tests_found_iff_no_suites folder top out cp pm :
  (__init__ findall_tests folder top out cp pm = Raise (NoTestsFound folder) <->
   exists b, process_all findall_tests (fresh folder out cp pm) (scan top) = Ok b /\
             suites b = [] /\ suite_records b = []) /\
  (forall env rest,
     __init__ findall_tests folder top out cp pm = Raise (NoTestsFound folder) ->
     main_folder findall_tests env out cp pm folder top
       = ([], Raise (NoTestsFound folder)) /\
     main findall_tests env out cp pm ((folder, top) :: rest)
       = ([], Raise (NoTestsFound folder))).
Proof.
  split.
  - unfold __init__. split.
    + intros H.
      destruct (process_all findall_tests _ (scan top)) as [self|e] eqn:E.
      * simpl in H. destruct (suites self) eqn:Es; [|discriminate].
        exists self. repeat split; try assumption.
        destruct (process_all_tiled _ _ _ _ _ _ E) as (_ & _ & Hren).
        rewrite Es in Hren. destruct (suite_records self); [reflexivity|discriminate].
      * simpl in H. injection H as ->.
        apply process_all_raises in E. discriminate.
    + intros (b & -> & Hs & _). simpl. rewrite Hs. reflexivity.
  - intros env rest H.
    assert (Hf : main_folder findall_tests env out cp pm folder top
                 = ([], Raise (NoTestsFound folder))).
    { unfold main_folder. rewrite H. reflexivity. }
    split; [exact Hf|].
    cbn [main]. rewrite Hf. reflexivity.
Qed.

Lemma last_hook (sel : groups -> bool) n ms d :
  (Forall (fun m => sel m = false) ms ->
   last (map (ptr_of n) (filter sel ms)) d = d) /\
  (forall ms1 m ms2,
     ms = ms1 ++ m :: ms2 -> sel m = true ->
     Forall (fun m' => sel m' = false) ms2 ->
     last (map (ptr_of n) (filter sel ms)) d = ptr_of n m).
Proof.
  assert (Hnone : forall l, Forall (fun m => sel m = false) l -> filter sel l = []).
  { induction l as [|a l IH]; intros Hl; [reflexivity|].
    inversion Hl; subst. simpl. rewrite H1. auto. }
  split.
  - intros Hall. rewrite (Hnone _ Hall). reflexivity.
  - intros ms1 m ms2 -> Hm Hall.
    rewrite filter_app. cbn [filter]. rewrite Hm, (Hnone _ Hall), map_app.
    cbn [map]. apply last_last.
Qed.

(** C4. In a group with an ordinary test, the matches named [initialize]
    and [cleanup] become the hooks of the suite, the last one of each
    name; a name with no match leaves the null entry. The count of the
    suite and the entries added to the callback table are those of the
    other matches only, in match order. *)
Theorem hooks_assigned_and_excluded self name contents ms :
  findall_tests name contents = Some ms ->
  filter is_ordinary ms <> [] ->
  exists b s,
    _process_test_file findall_tests self name contents = Ok b /\
    suite_records b = suite_records self ++ [s] /\
    suites b = suites self ++ [render_suite s] /\
    cb_count s = length (filter is_ordinary ms) /\
    cb_offset s = length (callbacks self) /\
    callbacks b =
      callbacks self ++ map (ptr_of (length (suites self))) (filter is_ordinary ms) /\
    (forall ms1 m ms2,
       ms = ms1 ++ m :: ms2 -> is_initialize m = true ->
       Forall (fun m' => is_initialize m' = false) ms2 ->
       initialize s = ptr_of (length (suites self)) m) /\
    (forall ms1 m ms2,
       ms = ms1 ++ m :: ms2 -> is_cleanup m = true ->
       Forall (fun m' => is_cleanup m' = false) ms2 ->
       cleanup s = ptr_of (length (suites self)) m) /\
    (Forall (fun m => is_initialize m = false) ms -> initialize s = NULL_FUNC) /\
    (Forall (fun m => is_cleanup m = false) ms -> cleanup s = NULL_FUNC).
Proof.
  intros Hms Hne. rewrite (process_eq _ _ _ _ Hms).
  destruct (filter is_ordinary ms) as [|m0 ms0] eqn:Eo; [congruence|].
  eexists. eexists. split; [reflexivity|].
  cbn [suite_records suites callbacks cb_count cb_offset initialize cleanup].
  repeat split; try reflexivity.
  - apply (last_hook is_initialize).
  - apply (last_hook is_cleanup).
  - apply (last_hook is_initialize).
  - apply (last_hook is_cleanup).
Qed.

(** C5. A group whose matches are all named [initialize] or [cleanup]
    (or that has no match) gives no suite: the suite table, the name
    list and the callback table stay as they were. *)
Theorem hooks_only_group_gives_no_suite self name contents ms :
  findall_tests name contents = Some ms ->
  Forall (fun m => is_ordinary m = false) ms ->
  exists b,
    _process_test_file findall_tests self name contents = Ok b /\
    suites b = suites self /\
    suite_records b = suite_records self /\
    suite_list b = suite_list self /\
    callbacks b = callbacks self.
Proof.
  intros Hms Hall. rewrite (process_eq _ _ _ _ Hms).
  assert (Ho : filter is_ordinary ms = []).
  { clear Hms. induction ms as [|m ms IH]; [reflexivity|].
    inversion Hall; subst. simpl. rewrite H1. auto. }
  rewrite Ho. eexists. split; [reflexivity|]. repeat split.
Qed.

Lemma filter_nil_existsb {A : Type} (f : A -> bool) (l : list A) :
  filter f l = [] <-> existsb f l = false.
Proof.
  induction l as [|a l IH]; simpl; [tauto|].
  destruct (f a); simpl; [split; discriminate|exact IH].
Qed.

(** The scan, file by file: the extern declarations of all matches, and
    a display name for each group with an ordinary test. *)
Lemma process_all_trace tests : forall self b,
  process_all findall_tests self tests = Ok b ->
  same_config self b /\
  suite_list b =
    suite_list self ++
    map (fun t => Py.replace "_" "::" (fst t)) (filter (has_ordinary findall_tests) tests) /\
  map clean_name (suite_records b) =
    map clean_name (suite_records self) ++
    map (fun t => Py.replace "_" "::" (fst t)) (filter (has_ordinary findall_tests) tests) /\
  exists mss,
    Forall2 (fun t ms => findall_tests (fst t) (snd t) = Some ms) tests mss /\
    declarations b =
      declarations self ++ map (fun m => extern_decl (declaration_of m)) (concat mss).
Proof.
  induction tests as [|[name contents] tests IH]; intros self b Hrun.
  - simpl in Hrun. injection Hrun as <-. simpl. rewrite !app_nil_r.
    unfold same_config. repeat split. exists []. split; [constructor|]. simpl. rewrite app_nil_r. reflexivity.
  - simpl in Hrun.
    destruct (_process_test_file findall_tests self name contents) as [self'|e] eqn:E;
      [|discriminate].
    simpl in Hrun. destruct (IH _ _ Hrun) as (Hc & Hl & Hn & mss & Hf & Hd). clear IH.
    destruct (process_inv _ _ _ _ E) as [ms Hms].
    rewrite (process_eq _ _ _ _ Hms) in E. injection E as E.
    assert (Hh : has_ordinary findall_tests (name, contents) = existsb is_ordinary ms).
    { unfold has_ordinary. cbn [fst snd]. rewrite Hms. reflexivity. }
    cbn [filter]. rewrite Hh.
    destruct (filter is_ordinary ms) as [|m0 ms0] eqn:Eo.
    + apply filter_nil_existsb in Eo. rewrite Eo.
      subst self'. unfold same_config in *.
      cbn [declarations callbacks suites suite_list clay_path print_mode output
           output_header modules suite_records] in Hc, Hl, Hn, Hd.
      split; [exact Hc|]. split; [exact Hl|]. split; [exact Hn|].
      exists (ms :: mss). split; [constructor; assumption|].
      cbn [concat]. rewrite map_app, app_assoc. exact Hd.
    + assert (Ex : existsb is_ordinary ms = true).
      { destruct (existsb is_ordinary ms) eqn:Ex; [reflexivity|].
        apply filter_nil_existsb in Ex. congruence. }
      rewrite Ex. subst self'. unfold same_config in *.
      cbn [declarations callbacks suites suite_list clay_path print_mode output
           output_header modules suite_records] in Hc, Hl, Hn, Hd.
      split; [exact Hc|].
      split; [rewrite Hl, <- app_assoc; reflexivity|].
      split; [rewrite Hn, map_app, <- app_assoc; reflexivity|].
      exists (ms :: mss). split; [constructor; assumption|].
      cbn [concat]. rewrite map_app, app_assoc. exact Hd.
Qed.

Lemma init_inv folder top out cp pm b :
  __init__ findall_tests folder top out cp pm = Ok b ->
  process_all findall_tests (fresh folder out cp pm) (scan top) = Ok b.
Proof.
  unfold __init__.
  destruct (process_all findall_tests _ (scan top)) as [self|e]; [|discriminate].
  simpl. destruct (suites self); [discriminate|]. congruence.
Qed.

Lemma replace_underscores (s : string) :
  Py.chars (Py.replace "_" "::" s) =
  flat_map (fun c => if (c =? "_")%char then [":"; ":"]%char else [c]) (Py.chars s).
Proof.
  induction s as [|c s IH]; [reflexivity|].
  simpl. destruct (c =? "_")%char; simpl; rewrite <- IH; reflexivity.
Qed.

Lemma render_writes env self evs :
  render env self = (evs, Ok tt) ->
  exists clay_print clay_library header,
    evs = [FileOpen (output self);
           FileWrite (output self)
             (TEMPLATE_MAIN_substitute (main_args_of self clay_print clay_library));
           FileOpen (output_header self);
           FileWrite (output_header self) header].
Proof.
  unfold render.
  destruct (_get_print_method self) as [pr|e]; simpl; [|discriminate].
  destruct (_get_library env self) as [lib|e]; simpl; [|discriminate].
  destruct (_load_file env self "clay.h") as [h|e]; [|discriminate].
  intros H. injection H as <-. eauto.
Qed.

(** C9. The display names of the suites are the group names of the files
    with an ordinary test, in scan order, each with every underscore
    turned into [::]; the selector string of the driver is these names
    joined with a comma and a space. *)
Theorem display_names_and_selector folder top out cp pm b :
  __init__ findall_tests folder top out cp pm = Ok b ->
  map clean_name (suite_records b) =
    map (fun t => Py.replace "_" "::" (fst t))
        (filter (has_ordinary findall_tests) (scan top)) /\
  (forall name,
     Py.chars (Py.replace "_" "::" name) =
     flat_map (fun c => if (c =? "_")%char then [":"; ":"]%char else [c])
              (Py.chars name)) /\
  suite_list b = map clean_name (suite_records b) /\
  (forall env evs,
     render env b = (evs, Ok tt) ->
     exists clay_print clay_library,
       In (FileWrite (output b)
             (TEMPLATE_MAIN_substitute (main_args_of b clay_print clay_library))) evs /\
       a_suites_str (main_args_of b clay_print clay_library) =
         Py.join ", " (map clean_name (suite_records b))).
Proof.
  intros H. apply init_inv in H.
  destruct (process_all_trace _ _ _ H) as (_ & Hl & Hn & _).
  cbn [fresh suite_list suite_records map app] in Hl, Hn. split; [exact Hn|]. split; [exact replace_underscores|].
  assert (Hsl : suite_list b = map clean_name (suite_records b)) by congruence.
  split; [exact Hsl|].
  intros env evs Hr. destruct (render_writes _ _ _ Hr) as (pr & lib & h & ->).
  exists pr, lib. split; [simpl; auto|].
  cbn [main_args_of a_suites_str]. rewrite Hsl. reflexivity.
Qed.




Lemma process_all_config tests self b :
  process_all findall_tests self tests = Ok b -> same_config self b.
Proof. intros H. apply (process_all_trace _ _ _ H). Qed.

Lemma load_file_configured env self d f :
  clay_path self = Some d -> d <> "" ->
  _load_file env self f =
  match read_file env (path_join d f) with
  | Some t => Ok t
  | None => Raise (IOError (path_join d f))
  end.
Proof.
  intros Hp Hd. unfold _load_file, configured. rewrite Hp.
  destruct (String.eqb d "") eqn:E; [apply String.eqb_eq in E; contradiction|].
  reflexivity.
Qed.


Lemma last_in_nonempty {A : Type} (l : list A) (d : A) :
  l <> [] -> In (last l d) l.
Proof.
  induction l as [|a l IH]; [congruence|]. intros _.
  destruct l as [|a' l]; [left; reflexivity|].
  right. apply IH. discriminate.
Qed.

Lemma func_ptr_not_null short_name symbol n :
  func_ptr short_name symbol n <> NULL_FUNC.
Proof. unfold func_ptr, NULL_FUNC, Py.dq. simpl. discriminate. Qed.

Lemma scan_scenario_B b_c c_c order :
  scan (scenario_B b_c c_c order) = [("c", c_c); ("a_b", b_c)].
Proof. destruct order; reflexivity. Qed.

(** C2, as the script has it. The files of a directory are read before
    its sub-directories are entered, so [c.c] is the first suite and
    [a/b.c] the second, however the root is listed: the second suite
    starts at the count of the first, which is 1, and it is the first
    suite that has the [initialize] hook. *)
Theorem scenario_B_files_before_subdirectories
  b_c c_c msb msc order folder out cp pm :
  findall_tests "a_b" b_c = Some msb ->
  findall_tests "c" c_c = Some msc ->
  length (filter is_ordinary msb) = 2 ->
  filter is_initialize msb = [] ->
  length (filter is_ordinary msc) = 1 ->
  filter is_initialize msc <> [] ->
  exists b s1 s2,
    __init__ findall_tests folder (scenario_B b_c c_c order) out cp pm = Ok b /\
    suite_records b = [s1; s2] /\
    suites b = [render_suite s1; render_suite s2] /\
    clean_name s1 = "c" /\ clean_name s2 = "a::b" /\
    cb_offset s1 = 0 /\ cb_count s1 = 1 /\
    cb_offset s2 = cb_count s1 /\ cb_count s2 = 2 /\
    initialize s1 <> NULL_FUNC /\ initialize s2 = NULL_FUNC.
Proof.
  intros Hb Hc Hb2 Hbi Hc1 Hci.
  unfold __init__. rewrite scan_scenario_B. cbn [process_all].
  rewrite (process_eq _ "c" c_c msc Hc).
  destruct (filter is_ordinary msc) as [|mc [|]] eqn:Eoc; try discriminate Hc1.
  cbn [bind]. rewrite (process_eq _ "a_b" b_c msb Hb).
  destruct (filter is_ordinary msb) as [|m1 [|m2 [|]]] eqn:Eob; try discriminate Hb2.
  rewrite Hbi. cbn.
  eexists. eexists. eexists. split; [reflexivity|].
  cbn. repeat split.
  intros Hnull.
  assert (Hin := last_in_nonempty (map (ptr_of 0) (filter is_initialize msc)) NULL_FUNC).
  cbn [initialize] in Hnull. rewrite Hnull in Hin.
  destruct (filter is_initialize msc) as [|mi l]; [congruence|].
  specialize (Hin ltac:(discriminate)).
  apply in_map_iff in Hin. destruct Hin as (m & Hm & _).
  exact (func_ptr_not_null _ _ _ Hm).
Qed.

End BuilderFacts.

(** ** The tree walk and the group names *)

(** Induction on a tree, with the property at hand for every entry of a
    directory. *)
Fixpoint node_nested_ind (P : node -> Prop)
  (Hfile : forall c, P (File c))
  (Hdir : forall entries, Forall (fun e => P (snd e)) entries -> P (Dir entries))
  (n : node) {struct n} : P n :=
  match n with
  | File c => Hfile c
  | Dir entries =>
      Hdir entries
        ((fix all (l : list (string * node)) : Forall (fun e => P (snd e)) l :=
            match l with
            | [] => Forall_nil _
            | e :: l' =>
                Forall_cons e
                  (let '(_, m) as e' := e return P (snd e') in
                   node_nested_ind P Hfile Hdir m)
                  (all l')
            end) entries)
  end.

Lemma files_of_in entries f c :
  In (f, c) (files_of entries) -> In (f, File c) entries.
Proof.
  unfold files_of. rewrite in_flat_map. intros ([name n] & Hin & Hf).
  destruct n as [c'|es]; simpl in Hf; [|contradiction].
  destruct Hf as [Hf|[]]. injection Hf as -> ->. exact Hin.
Qed.

Lemma os_walk_files top : forall root r ds fs,
  In (r, ds, fs) (os_walk root top) ->
  exists path, r = root ++ path /\
               forall f c, In (f, c) fs -> file_at top path f c.
Proof.
  induction top as [c|entries IH] using node_nested_ind; intros root r ds fs Hin.
  - contradiction.
  - cbn [os_walk] in Hin. destruct Hin as [Hhd|Htl].
    + injection Hhd as <- <- <-. exists []. split; [symmetry; apply app_nil_r|].
      intros f c Hf. apply file_here, files_of_in, Hf.
    + apply in_flat_map in Htl. destruct Htl as ([name n] & Hen & Hin).
      rewrite Forall_forall in IH. specialize (IH _ Hen). cbn [snd] in IH.
      destruct n as [c|es]; [contradiction|].
      destruct (IH _ _ _ _ Hin) as (path & -> & Hfiles).
      exists (name :: path). split; [rewrite <- app_assoc; reflexivity|].
      intros f c Hf. eapply file_below; eauto.
Qed.

Lemma chars_append (a b : string) :
  Py.chars (a +++ b) = Py.chars a ++ Py.chars b.
Proof. induction a as [|c a IH]; simpl; [reflexivity|]. f_equal. exact IH. Qed.

Lemma identifier_append a b : identifier a -> identifier b -> identifier (a +++ b).
Proof.
  unfold identifier. rewrite chars_append. intros. apply Forall_app. split; assumption.
Qed.

Lemma identifier_join (l : list string) :
  Forall identifier l -> identifier (Py.join "_" l).
Proof.
  induction l as [|a l IH]; intros Hl.
  - constructor.
  - inversion Hl as [|? ? Ha Hl']; subst.
    unfold Py.join in *. cbn [String.concat]. destruct l as [|a' l]; [exact Ha|].
    apply identifier_append; [exact Ha|].
    apply identifier_append; [repeat constructor|]. apply IH, Hl'.
Qed.

Lemma substring_split (s : string) : forall k,
  k <= String.length s ->
  s = substring 0 k s +++ substring k (String.length s - k) s.
Proof.
  induction s as [|c s IH]; intros k Hk.
  - simpl in Hk. assert (k = 0) as -> by lia. reflexivity.
  - destruct k as [|k].
    + cbn [substring String.append String.length Nat.sub]. f_equal.
      clear. induction s as [|c s IH]; [reflexivity|].
      cbn [String.length substring]. f_equal. exact IH.
    + cbn [substring String.append String.length Nat.sub]. f_equal.
      apply IH. simpl in Hk. lia.
Qed.

Lemma endswith_split (s suffix : string) :
  Py.endswith s suffix = true ->
  s = Py.drop_last (String.length suffix) s +++ suffix.
Proof.
  unfold Py.endswith, Py.drop_last. intros H.
  apply andb_true_iff in H. destruct H as [Hle Heq].
  apply Nat.leb_le in Hle. apply String.eqb_eq in Heq.
  pose proof (substring_split s (String.length s - String.length suffix)
                ltac:(lia)) as Hs.
  replace (String.length s - (String.length s - String.length suffix))
    with (String.length suffix) in Hs by lia.
  rewrite Heq in Hs. exact Hs.
Qed.

(** C8, as the script has it. The group name of a scanned file is made of
    the names of the directories that lead to it and of the file name
    without its [.c], joined with underscores. It is an identifier
    fragment when these names are; the script does not look at them. *)
Theorem group_name_of_scanned_file top name contents :
  In (name, contents) (scan top) ->
  exists ds f,
    file_at top ds f contents /\
    f = Py.drop_last 2 f +++ ".c" /\
    name = Py.join "_" (filter (fun c => negb (String.eqb c "")) ds
                        ++ [Py.drop_last 2 f]) /\
    (Forall identifier ds -> identifier (Py.drop_last 2 f) -> identifier name).
Proof.
  unfold scan. rewrite in_flat_map. intros ([[r dirs] fs] & Hitem & Hin).
  destruct (os_walk_files _ _ _ _ _ Hitem) as (path & Hr & Hfiles).
  simpl in Hr. subst r. unfold tests_of_item in Hin.
  apply in_map_iff in Hin. destruct Hin as ([f c] & Heq & Hf).
  injection Heq as <- <-. apply filter_In in Hf. destruct Hf as [Hf Hc].
  exists path, f. split; [apply Hfiles, Hf|].
  split; [apply (endswith_split f ".c"), Hc|].
  split; [reflexivity|].
  intros Hds Hstem. unfold test_name_of. apply identifier_join.
  apply Forall_app. split; [|repeat constructor; exact Hstem].
  apply Forall_forall. intros x Hx. apply filter_In in Hx.
  rewrite Forall_forall in Hds. apply Hds, Hx.
Qed.

Lemma group_name_of_scanned_file_witness :
  In ("a_b", sample_b_c) (scan sample_tree) /\
  exists ds f,
    file_at sample_tree ds f sample_b_c /\
    f = Py.drop_last 2 f +++ ".c" /\
    "a_b" = Py.join "_" (filter (fun c => negb (String.eqb c "")) ds
                         ++ [Py.drop_last 2 f]) /\
    (Forall identifier ds -> identifier (Py.drop_last 2 f) -> identifier "a_b").
Proof.
  split.
  - right. left. reflexivity.
  - apply (group_name_of_scanned_file sample_tree "a_b" sample_b_c).
    right. left. reflexivity.
Defined.

(** C8, as the specification has it, fails for the file [foo-bar.c]. *)
Lemma group_name_counterexample :
  In ("foo-bar", "") (scan sample_tree_dash) /\ ~ identifier "foo-bar".
Proof.
  split; [left; reflexivity|].
  unfold identifier. rewrite Forall_forall. intros H.
  specialize (H "-"%char ltac:(simpl; tauto)). discriminate H.
Qed.


Lemma hooks_assigned_and_excluded_witness :
  exists ms,
    regex_findall "c" sample_c_c = Some ms /\
    filter is_ordinary ms <> [] /\
    exists b s,
      _process_test_file regex_findall (fresh "/t" None None "stdout")
        "c" sample_c_c = Ok b /\
      suite_records b = [s] /\
      suites b = [render_suite s] /\
      cb_count s = length (filter is_ordinary ms) /\
      cb_offset s = 0.
Proof.
  eexists. split; [vm_compute; reflexivity|].
  split; [vm_compute; discriminate|].
  destruct (hooks_assigned_and_excluded regex_findall
              (fresh "/t" None None "stdout") "c" sample_c_c _
              ltac:(vm_compute; reflexivity) ltac:(vm_compute; discriminate))
    as (b & s & H1 & H2 & H3 & H4 & H5 & _).
  exists b, s. repeat split; assumption.
Defined.

Lemma hooks_only_group_gives_no_suite_witness :
  exists ms,
    regex_findall "h" sample_hooks_c = Some ms /\
    Forall (fun m => is_ordinary m = false) ms /\
    exists b,
      _process_test_file regex_findall (fresh "/t" None None "stdout")
        "h" sample_hooks_c = Ok b /\
      suites b = [] /\ suite_records b = [] /\ suite_list b = [] /\ callbacks b = [].
Proof.
  eexists. split; [vm_compute; reflexivity|].
  split; [repeat constructor|].
  eapply (hooks_only_group_gives_no_suite regex_findall
            (fresh "/t" None None "stdout") "h" sample_hooks_c).
  - vm_compute. reflexivity.
  - repeat constructor.
Defined.

Lemma display_names_and_selector_witness :
  exists b,
    __init__ regex_findall "/t" sample_tree None None "stdout" = Ok b /\
    map clean_name (suite_records b) = ["c"; "a::b"] /\
    suite_list b = map clean_name (suite_records b).
Proof.
  eexists. split; [vm_compute; reflexivity|].
  destruct (display_names_and_selector regex_findall "/t" sample_tree
              None None "stdout" _ ltac:(vm_compute; reflexivity))
    as (H1 & _ & H3 & _).
  split; [exact H1|exact H3].
Defined.




Lemma scenario_B_files_before_subdirectories_witness :
  exists b s1 s2,
    __init__ regex_findall "/t" sample_tree None None "stdout" = Ok b /\
    suite_records b = [s1; s2] /\
    suites b = [render_suite s1; render_suite s2] /\
    clean_name s1 = "c" /\ clean_name s2 = "a::b" /\
    cb_offset s1 = 0 /\ cb_count s1 = 1 /\
    cb_offset s2 = cb_count s1 /\ cb_count s2 = 2 /\
    initialize s1 <> NULL_FUNC /\ initialize s2 = NULL_FUNC.
Proof.
  eapply (scenario_B_files_before_subdirectories regex_findall
            sample_b_c sample_c_c _ _ false "/t" None None "stdout").
  - vm_compute. reflexivity.
  - vm_compute. reflexivity.
  - reflexivity.
  - reflexivity.
  - reflexivity.
  - vm_compute. discriminate.
Defined.

(** C2, as the specification has it, fails on the worked example: the
    second suite starts at 1, not at 2, and has no [initialize] hook. *)
Lemma scenario_B_counterexample :
  exists b s1 s2,
    __init__ regex_findall "/t" sample_tree None None "stdout" = Ok b /\
    suite_records b = [s1; s2] /\
    ~ (cb_offset s2 = cb_count s1 /\ cb_count s1 = 2 /\ initialize s2 <> NULL_FUNC) /\
    cb_offset s2 = 1 /\ initialize s2 = NULL_FUNC.
Proof.
  eexists. eexists. eexists.
  split; [vm_compute; reflexivity|].
  split; [reflexivity|].
  split; [|split; reflexivity].
  intros (_ & H & _). vm_compute in H. discriminate.
Qed.

(** ** The matcher *)

Lemma star_runs_spec p s : forall m,
  In m (Re.star_runs p s) <->
  Forall (fun c => p c = true) m /\ exists tail, s = m ++ tail.
Proof.
  induction s as [|c s IH]; intros m.
  - simpl. split.
    + intros [<-|[]]. split; [constructor|exists []; reflexivity].
    + intros [_ [tail H]]. left. symmetry in H.
      apply app_eq_nil in H. symmetry. apply H.
  - cbn [Re.star_runs]. destruct (p c) eqn:Hc.
    + rewrite in_app_iff, in_map_iff. split.
      * intros [(m' & <- & Hin)|[<-|[]]].
        -- apply IH in Hin. destruct Hin as [Hall [tail ->]].
           split; [constructor; assumption|exists tail; reflexivity].
        -- split; [constructor|exists (c :: s); reflexivity].
      * intros [Hall [tail H]]. destruct m as [|c' m']; [right; left; reflexivity|].
        left. injection H as <- ->. exists m'. split; [reflexivity|].
        apply IH. inversion Hall; subst. split; [assumption|eauto].
    + split.
      * intros [<-|[]]. split; [constructor|exists (c :: s); reflexivity].
      * intros [Hall [tail H]]. destruct m as [|c' m']; [left; reflexivity|].
        injection H as <- ->. inversion Hall; subst. congruence.
Qed.

Lemma skipn_length_app {A : Type} (l t : list A) : skipn (length l) (l ++ t) = t.
Proof. induction l; [reflexivity|assumption]. Qed.

(** [run] enumerates the matches of a pattern, and nothing else. *)
Lemma run_spec r : forall prev s caps m caps',
  In (m, caps') (Re.run r prev s caps) <->
  Re.matches r prev m caps caps' /\ exists tail, s = m ++ tail.
Proof.
  induction r as [| |p|r1 IH1 r2 IH2|r IH|p|n r IH]; intros prev s caps m caps'.
  - simpl. split.
    + intros [H|[]]. injection H as <- <-. split; [constructor|eexists; reflexivity].
    + intros [H _]. inversion H; subst. left. reflexivity.
  - simpl. destruct (Re.at_bol prev) eqn:Hb; simpl.
    + split.
      * intros [H|[]]. injection H as <- <-. split; [constructor; assumption|eexists; reflexivity].
      * intros [H _]. inversion H; subst. left. reflexivity.
    + split; [intros []|]. intros [H _]. inversion H; subst. congruence.
  - simpl. split.
    + destruct s as [|c s]; [intros []|].
      destruct (p c) eqn:Hc; [|intros []].
      intros [H|[]]. injection H as <- <-. split; [constructor; assumption|].
      exists s. reflexivity.
    + intros [H [tail ->]]. inversion H; subst. simpl.
      match goal with Hp : p _ = true |- _ => rewrite Hp end. left. reflexivity.
  - cbn [Re.run]. rewrite in_flat_map. split.
    + intros ([m1 caps1] & H1 & H2). apply in_map_iff in H2.
      destruct H2 as ([m2 caps2] & Heq & H2). injection Heq as <- <-.
      apply IH1 in H1. destruct H1 as [H1 [t1 ->]].
      rewrite skipn_length_app in H2. apply IH2 in H2. destruct H2 as [H2 [t2 ->]].
      split; [econstructor; eassumption|].
      exists t2. rewrite app_assoc. reflexivity.
    + intros [H [tail ->]]. inversion H; subst.
      exists (m1, caps1). split.
      * apply IH1. split; [assumption|]. exists (m2 ++ tail). symmetry. apply app_assoc.
      * apply in_map_iff. exists (m2, caps'). split; [reflexivity|].
        rewrite <- app_assoc, skipn_length_app. apply IH2. split; [assumption|eexists; reflexivity].
  - cbn [Re.run]. rewrite in_app_iff. split.
    + intros [H|[H|[]]].
      * apply IH in H. destruct H as [H Ht]. split; [apply Re.m_opt_taken, H|exact Ht].
      * injection H as <- <-. split; [apply Re.m_opt_skipped|eexists; reflexivity].
    + intros [H Ht]. inversion H; subst.
      * left. apply IH. split; assumption.
      * right. left. reflexivity.
  - cbn [Re.run]. rewrite in_map_iff. split.
    + intros (m' & Heq & Hin). injection Heq as <- <-.
      apply star_runs_spec in Hin. destruct Hin as [Hall Ht].
      split; [constructor; assumption|exact Ht].
    + intros [H Ht]. inversion H; subst. exists m. split; [reflexivity|].
      apply star_runs_spec. split; assumption.
  - cbn [Re.run]. rewrite in_map_iff. split.
    + intros ([m' caps0] & Heq & Hin). injection Heq as <- <-.
      apply IH in Hin. destruct Hin as [H Ht]. split; [constructor; assumption|exact Ht].
    + intros [H Ht]. inversion H; subst. eexists (m, _). split; [reflexivity|].
      apply IH. split; eassumption.
Qed.

Lemma matches_chars l : forall prev m caps caps',
  Re.matches (Re.seq (map Re.chr l)) prev m caps caps' <-> m = l /\ caps' = caps.
Proof.
  induction l as [|c l IH]; intros prev m caps caps'.
  - simpl. split.
    + intros H. inversion H; subst. split; reflexivity.
    + intros [-> ->]. constructor.
  - cbn [map Re.seq]. split.
    + intros H. inversion H; subst.
      match goal with H1 : Re.matches (Re.chr _) _ _ _ _ |- _ =>
        unfold Re.chr in H1; inversion H1; subst end.
      match goal with H2 : Re.matches (Re.seq _) _ _ _ _ |- _ =>
        apply IH in H2; destruct H2 as [-> ->] end.
      match goal with Hc : Ascii.eqb _ _ = true |- _ =>
        apply Ascii.eqb_eq in Hc; subst end.
      split; reflexivity.
    + intros [-> ->]. change (c :: l) with ([c] ++ l).
      econstructor.
      * unfold Re.chr. constructor. apply Ascii.eqb_refl.
      * apply IH. split; reflexivity.
Qed.

Lemma matches_lit str prev m caps caps' :
  Re.matches (Re.lit str) prev m caps caps' <-> m = Py.chars str /\ caps' = caps.
Proof. apply matches_chars. Qed.

Lemma matches_plus p prev m caps caps' :
  Re.matches (Re.plus p) prev m caps caps' <->
  m <> [] /\ Forall (fun c => p c = true) m /\ caps' = caps.
Proof.
  unfold Re.plus. split.
  - intros H. inversion H; subst.
    match goal with H1 : Re.matches (Re.Chr _) _ _ _ _ |- _ => inversion H1; subst end.
    match goal with H2 : Re.matches (Re.Star _) _ _ _ _ |- _ => inversion H2; subst end.
    split; [discriminate|]. split; [constructor; assumption|reflexivity].
  - intros (Hne & Hall & ->). destruct m as [|c m]; [congruence|].
    inversion Hall; subst. change (c :: m) with ([c] ++ m).
    econstructor; constructor; assumption.
Qed.

Lemma word_char_atom c :
  Py.is_word c = true -> name_atom c = Some (Re.chr c).
Proof.
  destruct c as [[] [] [] [] [] [] [] []]; intros H;
    try discriminate H; reflexivity.
Qed.

Lemma name_pattern_identifier G :
  identifier G -> name_pattern (Py.chars G) = Some (map Re.chr (Py.chars G)).
Proof.
  unfold identifier. induction (Py.chars G) as [|c l IH]; intros H; [reflexivity|].
  inversion H; subst. cbn [name_pattern map].
  rewrite word_char_atom, IH by assumption. reflexivity.
Qed.

Ltac invert_matches :=
  repeat match goal with
    | H : Re.matches (Re.lit _) _ _ _ _ |- _ =>
        apply matches_lit in H; destruct H as [? ?]; subst
    | H : Re.matches (Re.seq (map Re.chr _)) _ _ _ _ |- _ =>
        apply matches_chars in H; destruct H as [? ?]; subst
    | H : Re.matches (Re.plus _) _ _ _ _ |- _ =>
        apply matches_plus in H; destruct H as (? & ? & ?); subst
    | H : Re.matches (Re.chr _) _ _ _ _ |- _ =>
        unfold Re.chr in H; inversion H; subst; clear H
    | H : Re.matches (Re.Cat _ _) _ _ _ _ |- _ => inversion H; subst; clear H
    | H : Re.matches (Re.Grp _ _) _ _ _ _ |- _ => inversion H; subst; clear H
    | H : Re.matches (Re.Star _) _ _ _ _ |- _ => inversion H; subst; clear H
    | H : Re.matches Re.Bol _ _ _ _ |- _ => inversion H; subst; clear H
    | H : Re.matches Re.Eps _ _ _ _ |- _ => inversion H; subst; clear H
    | H : Ascii.eqb _ _ = true |- _ => apply Ascii.eqb_eq in H; subst
    end.

(** A match of the pattern of group [G] is a declaration as described. *)
Lemma pattern_match_declares G prev m caps :
  Re.matches (test_func_pattern (map Re.chr (Py.chars G))) prev m [] caps ->
  Re.at_bol prev = true /\
  forall tail, declares G (m ++ tail) (groups_of caps) (length m).
Proof.
  unfold test_func_pattern. cbn [Re.seq]. intros H.
  invert_matches.
  match goal with H : Re.matches (Re.Opt _) _ _ _ _ |- _ =>
    inversion H; subst; clear H end; invert_matches.
  all: split; [assumption|]; intros tail.
  all: match goal with
       | |- declares _
              (([] ++ (_ ++ ?w1 ++ (_ ++ _ ++ _ ++ ?sh ++ []) ++ _ ++ ?w2 ++ ?v ++ ?w3 ++ _)
                ++ ?w4 ++ _) ++ _) _ _ =>
           exists w1, sh, w2, v, w3, w4, tail
       end.
  all: repeat (split; [first [assumption | right; reflexivity | left; reflexivity
                             | split; assumption]|]).
  all: cbv zeta; unfold groups_of; cbn [Re.group Nat.eqb].
  all: rewrite ?app_nil_r, <- ?app_assoc; cbn [app]; rewrite <- ?app_assoc.
  all: repeat split; reflexivity.
Qed.

Lemma matches_lit_here str prev caps :
  Re.matches (Re.lit str) prev (Py.chars str) caps caps.
Proof. apply matches_lit. split; reflexivity. Qed.

Lemma matches_chr_here c prev caps : Re.matches (Re.chr c) prev [c] caps caps.
Proof. unfold Re.chr. constructor. apply Ascii.eqb_refl. Qed.

(** A declaration as described, at the beginning of a line, is a match of
    the pattern of group [G]. *)
Lemma declares_pattern_match G prev s g n :
  Re.at_bol prev = true ->
  declares G s g n ->
  exists m caps,
    Re.matches (test_func_pattern (map Re.chr (Py.chars G))) prev m [] caps /\
    (exists tail, s = m ++ tail) /\ groups_of caps = g /\ length m = n.
Proof.
  intros Hb (ws1 & short & ws2 & v & ws3 & ws4 & tail & Hn1 & Hs1 & [Hn Hw] & Hs2
             & Hv & Hs3 & Hs4 & Hs & Hg & Hlen).
  cbv zeta in Hs, Hg, Hlen. subst s g n.
  unfold test_func_pattern. cbn [Re.seq].
  assert (Hopt : exists caps4,
             (forall pr caps,
                Re.matches (Re.Opt (Re.Grp 4 (Re.lit "void"))) pr v caps (caps4 ++ caps)) /\
             (caps4 = [] /\ v = [] \/ caps4 = [(4, v)])).
  { destruct Hv as [->| ->].
    - exists []. split; [intros; apply Re.m_opt_skipped|left; split; reflexivity].
    - exists [(4, Py.chars "void")]. split; [|right; reflexivity].
      intros. apply Re.m_opt_taken, Re.m_grp, matches_lit_here. }
  destruct Hopt as (caps4 & Hopt & Hcaps4).
  eexists. eexists. split.
  { eapply Re.m_cat; [apply Re.m_bol, Hb|].
    eapply Re.m_cat; [eapply Re.m_grp|].
    - eapply Re.m_cat; [apply matches_lit_here|].
      eapply Re.m_cat;
        [apply matches_plus; split; [exact Hn1|split; [exact Hs1|reflexivity]]|].
      eapply Re.m_cat.
      { eapply Re.m_grp.
        eapply Re.m_cat; [apply matches_lit_here|].
        eapply Re.m_cat; [apply matches_chars; split; reflexivity|].
        eapply Re.m_cat; [apply matches_lit_here|].
        eapply Re.m_cat; [|apply Re.m_eps].
        eapply Re.m_grp.
        apply matches_plus; split; [exact Hn|split; [exact Hw|reflexivity]]. }
      eapply Re.m_cat; [apply matches_chr_here|].
      eapply Re.m_cat; [apply Re.m_star; exact Hs2|].
      eapply Re.m_cat; [apply Hopt|].
      eapply Re.m_cat; [apply Re.m_star; exact Hs3|].
      eapply Re.m_cat; [apply matches_chr_here|apply Re.m_eps].
    - eapply Re.m_cat; [apply Re.m_star; exact Hs4|].
      eapply Re.m_cat; [apply matches_chr_here|apply Re.m_eps]. }
  split; [exists tail|split].
  - rewrite ?app_nil_r, <- ?app_assoc. cbn [app]. rewrite <- ?app_assoc. reflexivity.
  - unfold groups_of.
    destruct Hcaps4 as [[-> ->]| ->]; cbn [app Re.group Nat.eqb];
      rewrite ?app_nil_r, <- ?app_assoc; cbn [app]; rewrite <- ?app_assoc; reflexivity.
  - rewrite ?app_nil_r, <- ?app_assoc. cbn [app]. rewrite <- ?app_assoc. reflexivity.
Qed.

Lemma hd_error_in {A : Type} (l : list A) x : hd_error l = Some x -> In x l.
Proof. destruct l; [discriminate|]. intros H. injection H as ->. left. reflexivity. Qed.

Lemma match_here_some G prev s m caps :
  Re.match_here (test_func_pattern (map Re.chr (Py.chars G))) prev s = Some (m, caps) ->
  Re.at_bol prev = true /\ declares G s (groups_of caps) (length m).
Proof.
  unfold Re.match_here. intros H. apply hd_error_in, run_spec in H.
  destruct H as [H [tail ->]].
  apply pattern_match_declares in H. destruct H as [Hb Hd]. split; [exact Hb|apply Hd].
Qed.

Lemma match_here_none G prev s :
  Re.match_here (test_func_pattern (map Re.chr (Py.chars G))) prev s = None ->
  ~ (Re.at_bol prev = true /\ exists g n, declares G s g n).
Proof.
  unfold Re.match_here. intros H [Hb (g & n & Hd)].
  destruct (declares_pattern_match _ _ _ _ _ Hb Hd) as (m & caps & Hm & Ht & _).
  assert (Hin : In (m, caps) (Re.run (test_func_pattern (map Re.chr (Py.chars G))) prev s []))
    by (apply run_spec; split; assumption).
  destruct (Re.run _ prev s []); [contradiction|discriminate].
Qed.

(** *** Matches do not overlap *)

Lemma peel {A : Type} (a : list A) : forall b pre x rest,
  a ++ b = pre ++ x :: rest ->
  (exists a2, a = pre ++ x :: a2 /\ rest = a2 ++ b) \/
  (exists pre2, pre = a ++ pre2 /\ b = pre2 ++ x :: rest).
Proof.
  induction a as [|c a IH]; intros b pre x rest H.
  - right. exists pre. split; [reflexivity|exact H].
  - destruct pre as [|c' pre].
    + injection H as -> <-. left. exists a. split; reflexivity.
    + injection H as <- H. destruct (IH _ _ _ _ H) as [(a2 & -> & ->)|(pre2 & -> & ->)].
      * left. exists a2. split; reflexivity.
      * right. exists pre2. split; reflexivity.
Qed.

Lemma peel_clean (a b pre rest : Re.text) :
  ~ In "010"%char a ->
  a ++ b = pre ++ "010"%char :: rest ->
  exists pre2, pre = a ++ pre2 /\ b = pre2 ++ "010"%char :: rest.
Proof.
  intros Hc H. destruct (peel _ _ _ _ _ H) as [(a2 & -> & _)|Hp]; [|exact Hp].
  exfalso. apply Hc. apply in_or_app. right. left. reflexivity.
Qed.

Lemma peel_spaces (w b pre rest : Re.text) :
  spaces w ->
  w ++ b = pre ++ "010"%char :: rest ->
  (exists w2, spaces w2 /\ rest = w2 ++ b) \/
  (exists pre2, pre = w ++ pre2 /\ b = pre2 ++ "010"%char :: rest).
Proof.
  intros Hw H. destruct (peel _ _ _ _ _ H) as [(w2 & -> & ->)|Hp]; [left|right; exact Hp].
  exists w2. split; [|reflexivity].
  apply Forall_app in Hw. destruct Hw as [_ Hw]. inversion Hw; assumption.
Qed.

Lemma not_v_after_spaces (w : Re.text) c b r0 :
  spaces w -> Py.is_space c = false -> c <> "v"%char ->
  w ++ c :: b = "v"%char :: r0 -> False.
Proof.
  intros Hw Hc Hv H. destruct w as [|c' w].
  - injection H as -> _. congruence.
  - injection H as -> _. inversion Hw; subst. discriminate.
Qed.

Lemma span_unique (p : ascii -> bool) (l1 : Re.text) : forall l2 x y r1 r2,
  Forall (fun c => p c = true) l1 -> Forall (fun c => p c = true) l2 ->
  p x = false -> p y = false ->
  l1 ++ x :: r1 = l2 ++ y :: r2 -> l1 = l2 /\ x = y /\ r1 = r2.
Proof.
  induction l1 as [|c l1 IH]; intros l2 x y r1 r2 H1 H2 Hx Hy H.
  - destruct l2 as [|c' l2].
    + injection H as -> ->. repeat split.
    + injection H as -> _. inversion H2; subst. congruence.
  - destruct l2 as [|c' l2].
    + injection H as -> _. inversion H1; subst. congruence.
    + injection H as -> H. inversion H1; inversion H2; subst.
      destruct (IH _ _ _ _ _ H5 H9 Hx Hy H) as (-> & -> & ->). repeat split.
Qed.

Lemma word_chars_clean (l : Re.text) :
  Forall (fun c => Py.is_word c = true) l -> ~ In "010"%char l.
Proof.
  intros H Hin. rewrite Forall_forall in H. specialize (H _ Hin). discriminate H.
Qed.

Lemma declares_starts G rest g n :
  declares G rest g n ->
  exists w r1, spaces w /\ rest = Py.chars "void" ++ w ++ "t"%char :: r1.
Proof.
  intros (ws1 & short & ws2 & v & ws3 & ws4 & tail & _ & Hs1 & _ & _ & _ & _ & _
          & Hs & _).
  cbv zeta in Hs. exists ws1. eexists. split; [exact Hs1|].
  rewrite Hs, <- ?app_assoc. reflexivity.
Qed.

Lemma skipn_past {A : Type} (pre : list A) x rest :
  skipn (S (length pre)) (pre ++ x :: rest) = rest.
Proof. induction pre; [reflexivity|assumption]. Qed.

Ltac clean_literal :=
  let H := fresh in
  intros H; simpl in H; repeat (destruct H as [H|H]; [discriminate H|]); exact H.

(** Inside a declaration no other declaration begins a line. *)
Lemma no_overlap G s g n :
  identifier G ->
  declares G s g n ->
  forall j, S j < n ->
    ~ (Re.at_bol (nth_error s j) = true /\
       exists g' n', declares G (skipn (S j) s) g' n').
Proof.
  intros HG (ws1 & short & ws2 & v & ws3 & ws4 & tail & Hn1 & Hs1 & [Hn Hw] & Hs2
             & Hv & Hs3 & Hs4 & Hs & _ & Hlen) j Hj [Hbol (g' & n' & Hd')].
  cbv zeta in Hs, Hlen.
  destruct (nth_error s j) as [c|] eqn:Ej.
  2:{ apply nth_error_None in Ej. subst s n. rewrite !length_app in *. lia. }
  simpl in Hbol. apply Ascii.eqb_eq in Hbol. subst c.
  apply nth_error_split in Ej. destruct Ej as (pre & rest & Hsplit & Hpre).
  rewrite Hsplit, <- Hpre, skipn_past in Hd'.
  apply declares_starts in Hd'. destruct Hd' as (w' & r1 & Hw' & Hrest).
  assert (Hv0 : exists r0, rest = "v"%char :: r0) by (rewrite Hrest; eexists; reflexivity).
  destruct Hv0 as [r0 Hv0].
  assert (Hvclean : ~ In "010"%char v) by (destruct Hv as [->| ->]; clean_literal).
  rewrite Hs in Hsplit. rewrite <- ?app_assoc in Hsplit.
  apply peel_clean in Hsplit; [|clean_literal].
  destruct Hsplit as (p1 & -> & H).
  apply peel_spaces in H; [|exact Hs1].
  destruct H as [(w2 & Hw2 & H)|(p2 & -> & H)].
  { rewrite Hv0 in H. symmetry in H.
    eapply (not_v_after_spaces w2 "t"); [exact Hw2|reflexivity|discriminate|exact H]. }
  apply peel_clean in H; [|clean_literal]. destruct H as (p3 & -> & H).
  apply peel_clean in H; [|apply word_chars_clean, HG]. destruct H as (p4 & -> & H).
  apply peel_clean in H; [|clean_literal]. destruct H as (p5 & -> & H).
  apply peel_clean in H; [|apply word_chars_clean, Hw]. destruct H as (p6 & -> & H).
  apply peel_clean in H; [|clean_literal]. destruct H as (p7 & -> & H).
  apply peel_spaces in H; [|exact Hs2].
  destruct H as [(w2 & Hw2 & H)|(p8 & -> & H)].
  { destruct Hv as [->| ->].
    - rewrite Hv0 in H. symmetry in H. cbn [app] in H. rewrite app_assoc in H.
      eapply (not_v_after_spaces (w2 ++ ws3) ")"); [|reflexivity|discriminate|exact H].
      apply Forall_app. split; assumption.
    - destruct w2 as [|c w2].
      + rewrite Hrest in H. cbn [app] in H. apply app_inv_head in H.
        destruct (span_unique Py.is_space w' ws3 "t" ")" r1
                    (ws4 ++ Py.chars "{" ++ tail) Hw' Hs3 eq_refl eq_refl H)
          as (_ & Hx & _).
        discriminate Hx.
      + rewrite Hv0 in H. injection H as Hc _. subst c.
        inversion Hw2; subst. discriminate. }
  apply peel_clean in H; [|exact Hvclean]. destruct H as (p9 & -> & H).
  apply peel_spaces in H; [|exact Hs3].
  destruct H as [(w2 & Hw2 & H)|(p10 & -> & H)].
  { rewrite Hv0 in H. symmetry in H.
    eapply (not_v_after_spaces w2 ")"); [exact Hw2|reflexivity|discriminate|exact H]. }
  apply peel_clean in H; [|clean_literal]. destruct H as (p11 & -> & H).
  apply peel_spaces in H; [|exact Hs4].
  destruct H as [(w2 & Hw2 & H)|(p12 & -> & H)].
  { rewrite Hv0 in H. symmetry in H.
    eapply (not_v_after_spaces w2 "{"); [exact Hw2|reflexivity|discriminate|exact H]. }
  apply peel_clean in H; [|clean_literal]. destruct H as (p13 & -> & H).
  subst n j. rewrite !length_app in Hj. simpl in Hj. lia.
Qed.

(** *** The scan of [findall] *)

Lemma declares_nonempty G g n : ~ declares G [] g n.
Proof.
  intros (ws1 & short & ws2 & v & ws3 & ws4 & tail & _ & _ & _ & _ & _ & _ & _
          & Hs & _).
  cbv zeta in Hs. rewrite <- ?app_assoc in Hs. discriminate Hs.
Qed.

Lemma declared_at_shift G prev c s p :
  declared_at G prev (c :: s) (S p) <-> declared_at G (Some c) s p.
Proof.
  unfold declared_at. cbn [skipn].
  replace (before prev (c :: s) (S p)) with (before (Some c) s p)
    by (destruct p; reflexivity).
  tauto.
Qed.

Lemma sorted_map_S ps : StronglySorted lt ps -> StronglySorted lt (map S ps).
Proof.
  induction 1 as [|p ps Hs IH Hall]; [constructor|].
  cbn [map]. constructor; [exact IH|].
  rewrite Forall_forall in *. intros x Hx. apply in_map_iff in Hx.
  destruct Hx as (y & <- & Hy). specialize (Hall _ Hy). lia.
Qed.

Lemma shift_positions G prev c s ps ms :
  StronglySorted lt ps ->
  (forall p, In p ps <-> declared_at G (Some c) s p) ->
  Forall2 (fun p g => exists n, declares G (skipn p s) g n) ps ms ->
  StronglySorted lt (map S ps) /\
  Forall (lt 0) (map S ps) /\
  (forall p, In p (map S ps) <-> exists q, p = S q /\ declared_at G prev (c :: s) (S q)) /\
  Forall2 (fun p g => exists n, declares G (skipn p (c :: s)) g n) (map S ps) ms.
Proof.
  intros Hs Hin Hf. split; [apply sorted_map_S, Hs|]. split; [|split].
  - apply Forall_forall. intros x Hx. apply in_map_iff in Hx.
    destruct Hx as (y & <- & _). lia.
  - intros p. rewrite in_map_iff. split.
    + intros (q & <- & Hq). exists q. split; [reflexivity|].
      apply declared_at_shift, Hin, Hq.
    + intros (q & -> & Hq). exists q. split; [reflexivity|].
      apply Hin, (declared_at_shift G prev), Hq.
  - clear Hs Hin. induction Hf as [|p g ps ms Hp Hf IH]; [constructor|].
    cbn [map]. constructor; [exact Hp|exact IH].
Qed.

Lemma findall_from_spec G :
  identifier G ->
  forall s prev skip,
    (forall k, k < skip -> ~ declared_at G prev s k) ->
    exists ps,
      StronglySorted lt ps /\
      (forall p, In p ps <-> declared_at G prev s p) /\
      Forall2 (fun p g => exists n, declares G (skipn p s) g n) ps
        (map groups_of
           (Re.findall_from (test_func_pattern (map Re.chr (Py.chars G))) prev s skip)).
Proof.
  intros HG. induction s as [|c s IH]; intros prev skip Hskip.
  - assert (Hno : forall p, ~ declared_at G prev [] p).
    { intros p [_ (g & n & Hd)]. destruct p; exact (declares_nonempty _ _ _ Hd). }
    exists []. split; [constructor|]. split.
    + intros p. split; [intros []|intros H; exact (Hno _ H)].
    + destruct skip as [|skip]; cbn [Re.findall_from map]; [|constructor].
      destruct (Re.match_here _ prev []) as [[m caps]|] eqn:E; [|constructor].
      apply match_here_some in E. destruct E as [_ Hd].
      destruct (declares_nonempty _ _ _ Hd).
  - destruct skip as [|skip]; cbn [Re.findall_from].
    + destruct (Re.match_here _ prev (c :: s)) as [[m caps]|] eqn:E.
      * apply match_here_some in E. destruct E as [Hb Hd].
        destruct (IH (Some c) (length m - 1)) as (ps & Hs & Hin & Hf).
        { intros k Hk Hdk. apply (declared_at_shift G prev) in Hdk.
          apply (no_overlap _ _ _ _ HG Hd k ltac:(lia)). exact Hdk. }
        destruct (shift_positions G prev c s ps _ Hs Hin Hf) as (Hs' & Hpos & Hin' & Hf').
        exists (0 :: map S ps). split; [constructor; assumption|]. split.
        -- intros p. destruct p as [|q].
           ++ split; [intros _|left; reflexivity].
              split; [exact Hb|]. exists (groups_of caps), (length m). exact Hd.
           ++ split.
              ** intros [H0|H]; [discriminate|].
                 apply Hin' in H. destruct H as (q' & Hq & H). injection Hq as ->. exact H.
              ** intros H. right. apply Hin'. exists q. split; [reflexivity|exact H].
        -- cbn [map]. constructor; [exists (length m); exact Hd|exact Hf'].
      * apply match_here_none in E.
        destruct (IH (Some c) 0) as (ps & Hs & Hin & Hf); [intros k Hk; lia|].
        destruct (shift_positions G prev c s ps _ Hs Hin Hf) as (Hs' & Hpos & Hin' & Hf').
        exists (map S ps). split; [exact Hs'|]. split; [|exact Hf'].
        intros p. rewrite Hin'. split.
        -- intros (q & -> & H). exact H.
        -- intros H. destruct p as [|q]; [destruct (E H)|]. exists q. split; [reflexivity|exact H].
    + destruct (IH (Some c) skip) as (ps & Hs & Hin & Hf).
      { intros k Hk Hdk. apply (declared_at_shift G prev) in Hdk.
        apply (Hskip (S k) ltac:(lia)). exact Hdk. }
      destruct (shift_positions G prev c s ps _ Hs Hin Hf) as (Hs' & Hpos & Hin' & Hf').
      exists (map S ps). split; [exact Hs'|]. split; [|exact Hf'].
      intros p. rewrite Hin'. split.
      * intros (q & -> & H). exact H.
      * intros H. destruct p as [|q]; [destruct (Hskip 0 ltac:(lia) H)|].
        exists q. split; [reflexivity|exact H].
Qed.

(** A text begins with one declaration at most. *)
Lemma declares_unique G s g n g' n' :
  declares G s g n -> declares G s g' n' -> g = g' /\ n = n'.
Proof.
  intros (ws1 & short & ws2 & v & ws3 & ws4 & tail & _ & Hs1 & [_ Hw] & Hs2
          & Hv & Hs3 & Hs4 & Hs & Hg & Hn)
         (ws1' & short' & ws2' & v' & ws3' & ws4' & tail' & _ & Hs1' & [_ Hw'] & Hs2'
          & Hv' & Hs3' & Hs4' & Hs' & Hg' & Hn').
  cbv zeta in *. subst g g' n n'. rewrite Hs in Hs'. clear Hs.
  rewrite <- ?app_assoc in Hs'. apply app_inv_head in Hs'.
  destruct (span_unique Py.is_space ws1 ws1' "t" "t" _ _ Hs1 Hs1' eq_refl eq_refl Hs')
    as (<- & _ & H).
  apply (app_inv_head (Py.chars "est_")), app_inv_head, app_inv_head in H.
  destruct (span_unique Py.is_word short short' "(" "(" _ _ Hw Hw' eq_refl eq_refl H)
    as (<- & _ & H1). clear H Hs'.
  assert (Hin : ws2 ++ v ++ ws3 = ws2' ++ v' ++ ws3' /\ v = v' /\ ws4 = ws4').
  { destruct Hv as [->| ->], Hv' as [->| ->]; cbn [app] in H1.
    - rewrite (app_assoc ws2 ws3), (app_assoc ws2' ws3') in H1.
      destruct (span_unique Py.is_space (ws2 ++ ws3) (ws2' ++ ws3') ")" ")" _ _
                  ltac:(apply Forall_app; split; assumption)
                  ltac:(apply Forall_app; split; assumption) eq_refl eq_refl H1)
        as (H2 & _ & H3).
      destruct (span_unique Py.is_space ws4 ws4' "{" "{" _ _ Hs4 Hs4' eq_refl eq_refl H3)
        as (-> & _).
      repeat split. exact H2.
    - exfalso. rewrite (app_assoc ws2 ws3) in H1.
      destruct (span_unique Py.is_space (ws2 ++ ws3) ws2' ")" "v" _ _
                  ltac:(apply Forall_app; split; assumption) Hs2' eq_refl eq_refl H1)
        as (_ & Hx & _).
      discriminate Hx.
    - exfalso. rewrite (app_assoc ws2' ws3') in H1.
      destruct (span_unique Py.is_space ws2 (ws2' ++ ws3') "v" ")" _ _ Hs2
                  ltac:(apply Forall_app; split; assumption) eq_refl eq_refl H1)
        as (_ & Hx & _).
      discriminate Hx.
    - destruct (span_unique Py.is_space ws2 ws2' "v" "v" _ _ Hs2 Hs2' eq_refl eq_refl H1)
        as (-> & _ & H2).
      apply (app_inv_head (Py.chars "oid")) in H2.
      destruct (span_unique Py.is_space ws3 ws3' ")" ")" _ _ Hs3 Hs3' eq_refl eq_refl H2)
        as (-> & _ & H3).
      destruct (span_unique Py.is_space ws4 ws4' "{" "{" _ _ Hs4 Hs4' eq_refl eq_refl H3)
        as (-> & _).
      repeat split. }
  destruct Hin as (H2 & <- & <-).
  assert (Hd : Py.chars "void" ++ ws1 ++
               (Py.chars "test_" ++ Py.chars G ++ Py.chars "__" ++ short) ++
               Py.chars "(" ++ ws2 ++ v ++ ws3 ++ Py.chars ")" =
               Py.chars "void" ++ ws1 ++
               (Py.chars "test_" ++ Py.chars G ++ Py.chars "__" ++ short) ++
               Py.chars "(" ++ ws2' ++ v ++ ws3' ++ Py.chars ")").
  { do 4 f_equal. rewrite !app_assoc. f_equal. rewrite <- !app_assoc. exact H2. }
  rewrite Hd. split; reflexivity.
Qed.

(** C7, as the script has it. For a group name made of letters, digits
    and underscores, [findall] returns, in the order of the text, the
    declarations of the group that begin a line, one for each position
    where one begins, and each position has one reading only; a text
    with no match leaves the builder as it was, with no error. A group
    name is spliced into the pattern unescaped, so other names are read
    as patterns. *)
Theorem matcher_finds_line_anchored_declarations G contents :
  identifier G ->
  exists ms,
    regex_findall G contents = Some ms /\
    matcher_spec G (Py.chars contents) ms /\
    (forall s g n g' n', declares G s g n -> declares G s g' n' -> g = g' /\ n = n') /\
    (ms = [] ->
     forall self, _process_test_file regex_findall self G contents = Ok self).
Proof.
  intros HG.
  assert (Hre : regex_findall G contents =
                Some (map groups_of
                        (Re.findall (test_func_pattern (map Re.chr (Py.chars G)))
                                    (Py.chars contents)))).
  { unfold regex_findall, TEST_FUNC_REGEX.
    rewrite (name_pattern_identifier G HG). reflexivity. }
  eexists. split; [exact Hre|]. split; [|split].
  - unfold matcher_spec, Re.findall.
    apply (findall_from_spec G HG (Py.chars contents) None 0).
    intros k Hk. lia.
  - intros s g n g' n'. apply declares_unique.
  - intros Hnil self. rewrite (process_eq regex_findall self G contents _ Hre).
    rewrite Hnil. cbn [filter map]. rewrite app_nil_r. destruct self; reflexivity.
Qed.

Lemma matcher_finds_line_anchored_declarations_witness :
  identifier "a_b" /\
  exists ms,
    regex_findall "a_b" sample_b_c = Some ms /\
    matcher_spec "a_b" (Py.chars sample_b_c) ms /\
    length ms = 2.
Proof.
  assert (Hid : identifier "a_b") by (repeat constructor).
  split; [exact Hid|].
  destruct (matcher_finds_line_anchored_declarations "a_b" sample_b_c Hid)
    as (ms & H1 & H2 & _).
  exists ms. split; [exact H1|]. split; [exact H2|].
  vm_compute in H1. injection H1 as <-. reflexivity.
Defined.

(** C7, as the specification has it, fails for the group name [a.b] of a
    file [a.b.c]: the dot matches any character, and a function that is
    not named after the group is reported. *)
Lemma matcher_counterexample :
  exists ms,
    regex_findall "a.b" "void test_aXb__t(void) {" = Some ms /\
    map symbol_of ms = ["test_aXb__t"] /\
    ~ matcher_spec "a.b" (Py.chars "void test_aXb__t(void) {") ms.
Proof.
  eexists. split; [vm_compute; reflexivity|]. split; [reflexivity|].
  intros (ps & _ & _ & Hf).
  inversion Hf as [|p g ps' ms' Hd Hf' Hp Hms]; subst.
  destruct Hd as (n & ws1 & short & ws2 & v & ws3 & ws4 & tail & _ & _ & _ & _ & _
                  & _ & _ & _ & Hg & _).
  cbv zeta in Hg. injection Hg as _ Hsym _ _.
  cbn in Hsym. discriminate Hsym.
Qed.

(** *** The scan always ends *)

Lemma regex_findall_identifier G contents :
  identifier G -> exists ms, regex_findall G contents = Some ms.
Proof.
  intros HG. unfold regex_findall, TEST_FUNC_REGEX.
  rewrite (name_pattern_identifier G HG). eexists. reflexivity.
Qed.

Lemma process_all_total tests :
  (forall t, In t tests -> identifier (fst t)) ->
  forall self, exists b, process_all regex_findall self tests = Ok b.
Proof.
  induction tests as [|[name contents] tests IH]; intros Hid self.
  - exists self. reflexivity.
  - destruct (regex_findall_identifier name contents (Hid (name, contents) (or_introl eq_refl)))
      as [ms Hms].
    cbn [process_all]. rewrite (process_eq regex_findall self name contents ms Hms).
    cbn [bind]. apply IH. intros t Ht. apply Hid. right. exact Ht.
Qed.

(** With identifier group names, [__init__] builds or finds no test. *)
Lemma init_total folder top out cp pm :
  (forall t, In t (scan top) -> identifier (fst t)) ->
  (exists b, __init__ regex_findall folder top out cp pm = Ok b) \/
  __init__ regex_findall folder top out cp pm = Raise (NoTestsFound folder).
Proof.
  intros Hid. unfold __init__.
  destruct (process_all_total (scan top) Hid (fresh folder out cp pm)) as [b ->].
  cbn [bind]. destruct (suites b); [right|left; eexists]; reflexivity.
Qed.

(** ** Further properties: rendering and [main] *)

Lemma print_method_known self :
  (known_print_mode (print_mode self) /\ exists pr, _get_print_method self = Ok pr) \/
  (~ known_print_mode (print_mode self) /\
   _get_print_method self = Raise (KeyError (print_mode self))).
Proof.
  unfold _get_print_method, known_print_mode.
  destruct (String.eqb (print_mode self) "stdout") eqn:E1.
  { apply String.eqb_eq in E1. left. split; [auto|eauto]. }
  destruct (String.eqb (print_mode self) "stderr") eqn:E2.
  { apply String.eqb_eq in E2. left. split; [auto|eauto]. }
  destruct (String.eqb (print_mode self) "silent") eqn:E3.
  { apply String.eqb_eq in E3. left. split; [auto|eauto]. }
  apply String.eqb_neq in E1, E2, E3. right. split; [|reflexivity].
  intros [H|[H|H]]; congruence.
Qed.

Lemma init_config findall_tests folder top out cp pm b :
  __init__ findall_tests folder top out cp pm = Ok b ->
  same_config (fresh folder out cp pm) b.
Proof. intros H. apply init_inv in H. exact (process_all_config _ _ _ _ H). Qed.

(** X1. The print mode is looked up when the driver is rendered, not before:
    a tree without tests fails as such whatever the mode, and a tree that
    builds with an unknown mode ends with the key error, no library file
    read and no output file opened, whatever can or cannot be read. *)
Theorem unknown_print_mode_detected_at_render
  findall_tests env out cp pm folder top :
  ~ known_print_mode pm ->
  (forall e, __init__ findall_tests folder top out cp pm = Raise e ->
             main_folder findall_tests env out cp pm folder top = ([], Raise e)) /\
  (forall b, __init__ findall_tests folder top out cp pm = Ok b ->
             main_folder findall_tests env out cp pm folder top
               = ([], Raise (KeyError pm))).
Proof.
  intros Hpm. unfold main_folder. split.
  - intros e ->. reflexivity.
  - intros b Hb. rewrite Hb.
    destruct (init_config _ _ _ _ _ _ _ Hb) as (_ & Hmode & _).
    cbn [fresh print_mode] in Hmode.
    unfold render.
    destruct (print_method_known b) as [[Hk _]|[_ ->]].
    + rewrite Hmode in Hk. contradiction.
    + rewrite Hmode. reflexivity.
Qed.

Lemma load_file_bundled env self f :
  configured (clay_path self) = None ->
  _load_file env self f = Ok (CLAY_FILES env f).
Proof. intros H. unfold _load_file. rewrite H. reflexivity. Qed.

(** X2. Without a support-library path (none, or the empty string) a run
    reads no library file: what it does is the same whichever files can
    be read, and every text it writes is a bundled one, the driver with
    the two bundled modules in it and the bundled header. *)
Theorem bundled_library_reads_no_file
  findall_tests out cp pm folder top :
  configured cp = None ->
  (forall env env',
     CLAY_FILES env = CLAY_FILES env' ->
     main_folder findall_tests env out cp pm folder top
       = main_folder findall_tests env' out cp pm folder top) /\
  (forall env evs r p text,
     main_folder findall_tests env out cp pm folder top = (evs, r) ->
     In (FileWrite p text) evs ->
     exists b,
       __init__ findall_tests folder top out cp pm = Ok b /\
       ((p = output b /\
         exists clay_print,
           text = TEMPLATE_MAIN_substitute
                    (main_args_of b clay_print
                       (CLAY_FILES env "clay.c" +++ Py.nl
                        +++ CLAY_FILES env "clay_sandbox.c"))) \/
        (p = output_header b /\ text = CLAY_FILES env "clay.h"))).
Proof.
  intros Hcp.
  assert (Hrender : forall env b,
             __init__ findall_tests folder top out cp pm = Ok b ->
             render env b =
             match _get_print_method b with
             | Raise e => ([], Raise e)
             | Ok pr =>
                 ([FileOpen (output b);
                   FileWrite (output b)
                     (TEMPLATE_MAIN_substitute
                        (main_args_of b pr
                           (CLAY_FILES env "clay.c" +++ Py.nl
                            +++ CLAY_FILES env "clay_sandbox.c")));
                   FileOpen (output_header b);
                   FileWrite (output_header b) (CLAY_FILES env "clay.h")], Ok tt)
             end).
  { intros env b Hb.
    destruct (init_config _ _ _ _ _ _ _ Hb) as (Hpath & _ & _ & _ & Hmod).
    cbn [fresh clay_path modules] in Hpath, Hmod.
    assert (Hc : configured (clay_path b) = None) by (rewrite Hpath; exact Hcp).
    unfold render. destruct (_get_print_method b) as [pr|e]; cbn [bind]; [|reflexivity].
    unfold _get_library. rewrite Hmod. cbn [load_all].
    rewrite !(load_file_bundled env b) by exact Hc. reflexivity. }
  split.
  - intros env env' Heq. unfold main_folder.
    destruct (__init__ findall_tests folder top out cp pm) as [b|e] eqn:Hb;
      [|reflexivity].
    rewrite (Hrender env b eq_refl), (Hrender env' b eq_refl), Heq. reflexivity.
  - intros env evs r p text Hrun Hin. unfold main_folder in Hrun.
    destruct (__init__ findall_tests folder top out cp pm) as [b|e] eqn:Hb.
    + exists b. split; [reflexivity|].
      rewrite (Hrender env b eq_refl) in Hrun.
      destruct (_get_print_method b) as [pr|e]; injection Hrun as <- <-.
      * destruct Hin as [Hin|[Hin|[Hin|[Hin|[]]]]]; try discriminate Hin.
        -- injection Hin as <- <-. left. split; [reflexivity|exists pr; reflexivity].
        -- injection Hin as <- <-. right. split; reflexivity.
      * destruct Hin.
    + injection Hrun as <- <-. destruct Hin.
Qed.

(** X3. Whatever happens, [render] touches its two output files only, the
    driver before the header and each opened before it is written, and
    it reports success only when both were written. *)
Theorem render_writes_in_order env self :
  exists text header,
    let all := [FileOpen (output self); FileWrite (output self) text;
                FileOpen (output_header self);
                FileWrite (output_header self) header] in
    extends (fst (render env self)) all /\
    (snd (render env self) = Ok tt <-> fst (render env self) = all).
Proof.
  unfold render.
  destruct (_get_print_method self) as [pr|e]; cbn [bind].
  2:{ exists "", "". split; [eexists; reflexivity|]. split; discriminate. }
  destruct (_get_library env self) as [lib|e]; cbn [bind].
  2:{ exists "", "". split; [eexists; reflexivity|]. split; discriminate. }
  exists (TEMPLATE_MAIN_substitute (main_args_of self pr lib)).
  destruct (_load_file env self "clay.h") as [h|e].
  - exists h. split; [exists []; reflexivity|]. split; reflexivity.
  - exists "". split; [eexists; reflexivity|]. split; discriminate.
Qed.

(** X4. [main] handles the folders in order and stops at the first one that
    fails: what the earlier folders wrote stays written, and no later
    folder is scanned or written. *)
Theorem main_stops_at_first_failure
  findall_tests env out cp pm args1 folder top args2 evs e :
  Forall (fun a => snd (main_folder findall_tests env out cp pm (fst a) (snd a)) = Ok tt)
         args1 ->
  main_folder findall_tests env out cp pm folder top = (evs, Raise e) ->
  main findall_tests env out cp pm (args1 ++ (folder, top) :: args2) =
    (flat_map (fun a => fst (main_folder findall_tests env out cp pm (fst a) (snd a)))
              args1 ++ evs,
     Raise e).
Proof.
  intros Hok Hfail. induction Hok as [|[f t] args1 Hf Hok IH].
  - cbn [app flat_map main]. rewrite Hfail. reflexivity.
  - cbn [app flat_map main fst snd] in *.
    destruct (main_folder findall_tests env out cp pm f t) as [evs1 [[]|e1]];
      [|discriminate Hf].
    rewrite IH. cbn [fst]. rewrite <- app_assoc. reflexivity.
Qed.

(** X5. When every folder succeeds, [main] succeeds and has written all of
    them, in the order of the command line. *)
Theorem main_all_folders
  findall_tests env out cp pm args :
  Forall (fun a => snd (main_folder findall_tests env out cp pm (fst a) (snd a)) = Ok tt)
         args ->
  main findall_tests env out cp pm args =
    (flat_map (fun a => fst (main_folder findall_tests env out cp pm (fst a) (snd a)))
              args,
     Ok tt).
Proof.
  induction 1 as [|[f t] args Hf Hok IH]; [reflexivity|].
  cbn [flat_map main fst snd] in *.
  destruct (main_folder findall_tests env out cp pm f t) as [evs1 [[]|e1]];
    [|discriminate Hf].
  rewrite IH. reflexivity.
Qed.

(** X6. The output files are named after the output folder alone: with one
    given, every scan root is written to the same [clay_main.c] and
    [clay.h], so that the last folder of a command line overwrites the
    others; with none (or the empty string), each root gets the files in
    itself. *)
Theorem output_paths
  findall_tests folder top out cp pm b :
  __init__ findall_tests folder top out cp pm = Ok b ->
  let dir := match configured out with Some o => o | None => folder end in
  output b = path_join dir "clay_main.c" /\
  output_header b = path_join dir "clay.h".
Proof.
  intros Hb. destruct (init_config _ _ _ _ _ _ _ Hb) as (_ & _ & Ho & Hh & _).
  cbn [fresh output output_header] in Ho, Hh. rewrite Ho, Hh.
  unfold configured. destruct out as [o|]; [|split; reflexivity].
  destruct (String.eqb o ""); split; reflexivity.
Qed.

(** ** Further properties: the assembly of suites *)

Lemma window_app s cbs more :
  cb_offset s + cb_count s <= length cbs ->
  window s (cbs ++ more) = window s cbs.
Proof.
  intros H. unfold window. rewrite skipn_app, firstn_app, length_skipn.
  replace (cb_count s - (length cbs - cb_offset s)) with 0 by lia.
  rewrite firstn_O, app_nil_r. reflexivity.
Qed.

Lemma has_ordinary_matches findall_tests name contents ms :
  findall_tests name contents = Some ms ->
  has_ordinary findall_tests (name, contents) = existsb is_ordinary ms.
Proof. intros H. unfold has_ordinary. cbn [fst snd]. rewrite H. reflexivity. Qed.

Lemma owned_step findall_tests done self name contents b :
  owned findall_tests done self ->
  _process_test_file findall_tests self name contents = Ok b ->
  owned findall_tests (done ++ [(name, contents)]) b.
Proof.
  intros (Hlen & Hdone & Hown) Hrun.
  destruct (process_inv _ _ _ _ _ Hrun) as [ms Hms].
  rewrite (process_eq _ _ _ _ _ Hms) in Hrun. injection Hrun as <-.
  pose proof (has_ordinary_matches _ _ _ _ Hms) as Hh.
  unfold owned. rewrite filter_app. cbn [filter]. rewrite Hh.
  destruct (filter is_ordinary ms) as [|m0 ms0] eqn:Eo.
  - apply filter_nil_existsb in Eo. rewrite Eo, app_nil_r.
    cbn [suites suite_records callbacks].
    split; [exact Hlen|]. split; [exact Hdone|exact Hown].
  - assert (Ex : existsb is_ordinary ms = true).
    { destruct (existsb is_ordinary ms) eqn:Ex; [reflexivity|].
      apply filter_nil_existsb in Ex. congruence. }
    rewrite Ex. cbn [suites suite_records callbacks].
    split; [rewrite !length_app; simpl; lia|].
    split; [rewrite !length_app; simpl; lia|].
    intros i s Hi.
    destruct (Nat.lt_ge_cases i (length (suite_records self))) as [Hlt|Hge].
    + rewrite nth_error_app1 in Hi by assumption.
      destruct (Hown i s Hi) as (H1 & Hb & n & c & ms' & Hn & Hf & Hc & Hw & Hini & Hcl).
      split; [exact H1|]. split; [rewrite length_app; lia|].
      exists n, c, ms'. rewrite nth_error_app1 by (rewrite <- Hdone; exact Hlt).
      rewrite window_app by exact Hb. repeat split; assumption.
    + rewrite nth_error_app2 in Hi by assumption.
      destruct (i - length (suite_records self)) as [|k] eqn:Ek;
        [|destruct k; discriminate Hi].
      assert (i = length (suite_records self)) as -> by lia.
      cbn [nth_error] in Hi. injection Hi as <-.
      cbn [cb_count cb_offset clean_name initialize cleanup].
      split; [lia|]. split; [rewrite length_app, length_map; simpl; lia|].
      exists name, contents, ms.
      rewrite nth_error_app2 by (rewrite Hdone; lia).
      rewrite Hdone, Nat.sub_diag. rewrite <- Hdone, <- Hlen, Eo.
      split; [reflexivity|]. split; [exact Hms|]. split; [reflexivity|].
      split; [|split; reflexivity].
      unfold window. cbn [cb_count cb_offset].
      rewrite skipn_app, skipn_all, Nat.sub_diag. cbn [skipn app].
      apply firstn_all2. rewrite length_map. simpl. lia.
Qed.

Lemma owned_all findall_tests tests : forall done self b,
  owned findall_tests done self ->
  process_all findall_tests self tests = Ok b ->
  owned findall_tests (done ++ tests) b.
Proof.
  induction tests as [|[name contents] tests IH]; intros done self b Hown Hrun.
  - simpl in Hrun. injection Hrun as <-. rewrite app_nil_r. exact Hown.
  - simpl in Hrun.
    destruct (_process_test_file findall_tests self name contents) as [self'|e] eqn:E;
      [|discriminate].
    simpl in Hrun.
    replace (done ++ (name, contents) :: tests)
      with ((done ++ [(name, contents)]) ++ tests)
      by (rewrite <- app_assoc; reflexivity).
    eapply IH; [|exact Hrun]. eapply owned_step; eassumption.
Qed.

Lemma owned_fresh findall_tests folder out cp pm :
  owned findall_tests [] (fresh folder out cp pm).
Proof.
  unfold owned, fresh. cbn [suites suite_records callbacks filter length].
  split; [reflexivity|]. split; [reflexivity|].
  intros i s Hi. destruct i; discriminate Hi.
Qed.

(** X7. Suite number [i] of a run is the [i]-th scanned file with an ordinary
    test. Its window of the callback table holds the entries of the
    ordinary tests of that file, in match order, and nothing else; these
    entries and the hooks of the suite carry the index [i]. *)
Theorem suite_owns_its_window
  findall_tests folder top out cp pm b i s :
  __init__ findall_tests folder top out cp pm = Ok b ->
  nth_error (suite_records b) i = Some s ->
  exists name contents ms,
    nth_error (filter (has_ordinary findall_tests) (scan top)) i = Some (name, contents) /\
    findall_tests name contents = Some ms /\
    clean_name s = Py.replace "_" "::" name /\
    window s (callbacks b) = map (ptr_of i) (filter is_ordinary ms) /\
    initialize s = last (map (ptr_of i) (filter is_initialize ms)) NULL_FUNC /\
    cleanup s = last (map (ptr_of i) (filter is_cleanup ms)) NULL_FUNC.
Proof.
  intros Hb Hi. apply init_inv in Hb.
  pose proof (owned_fresh findall_tests folder out cp pm) as H0.
  destruct (owned_all _ _ _ _ _ H0 Hb) as (_ & _ & Hown).
  destruct (Hown i s Hi) as (_ & _ & H). exact H.
Qed.

(** X8. The sizes written into the driver are those of the tables: the count
    of callbacks is the sum of the counts of the suites, the count of
    suites their number; every suite has a test, and no window runs past
    the end of the callback table. *)
Theorem table_sizes_and_bounds
  findall_tests folder top out cp pm b clay_print clay_library :
  __init__ findall_tests folder top out cp pm = Ok b ->
  let args := main_args_of b clay_print clay_library in
  a_cb_count args = list_sum (map cb_count (suite_records b)) /\
  a_suite_count args = length (suite_records b) /\
  1 <= a_suite_count args /\
  forall s, In s (suite_records b) ->
    1 <= cb_count s /\ cb_offset s + cb_count s <= a_cb_count args.
Proof.
  intros Hb. pose proof Hb as Hinit. apply init_inv in Hb.
  destruct (process_all_tiled _ _ _ _ _ _ _ Hb) as (_ & Hsum & _).
  pose proof (owned_fresh findall_tests folder out cp pm) as H0.
  destruct (owned_all _ _ _ _ _ H0 Hb) as (Hlen & _ & Hown).
  cbv zeta. cbn [main_args_of a_cb_count a_suite_count].
  split; [symmetry; exact Hsum|]. split; [exact Hlen|]. split.
  - unfold __init__ in Hinit. rewrite Hb in Hinit. cbn [bind] in Hinit.
    destruct (suites b); [discriminate|]. simpl. lia.
  - intros s Hs. apply In_nth_error in Hs. destruct Hs as [i Hi].
    destruct (Hown i s Hi) as (H1 & H2 & _). split; assumption.
Qed.

(** X9. What each way [__init__] ends tells of the scanned files: when the
    builder is returned, the matcher gave its matches for every scanned
    file and some file has an ordinary test; when the run fails for want
    of tests, the matcher gave its matches for every scanned file and no
    file has an ordinary test. *)
Theorem init_outcome_tells findall_tests folder top out cp pm :
  (forall b,
     __init__ findall_tests folder top out cp pm = Ok b ->
     (forall t, In t (scan top) -> findall_tests (fst t) (snd t) <> None) /\
     exists t, In t (scan top) /\ has_ordinary findall_tests t = true) /\
  (__init__ findall_tests folder top out cp pm = Raise (NoTestsFound folder) ->
   forall t, In t (scan top) ->
     findall_tests (fst t) (snd t) <> None /\ has_ordinary findall_tests t = false).
Proof.
  assert (Hsome : forall b,
             process_all findall_tests (fresh folder out cp pm) (scan top) = Ok b ->
             forall t, In t (scan top) -> findall_tests (fst t) (snd t) <> None).
  { intros b Hb t Ht.
    destruct (process_all_trace _ _ _ _ Hb) as (_ & _ & _ & mss & Hf & _).
    clear Hb. induction Hf as [|t0 ms0 l mss' H0 Hf IH]; [destruct Ht|].
    destruct Ht as [<-|Ht]; [congruence|exact (IH Ht)]. }
  assert (Hnames : forall b,
             process_all findall_tests (fresh folder out cp pm) (scan top) = Ok b ->
             length (suites b)
             = length (filter (has_ordinary findall_tests) (scan top))).
  { intros b Hb.
    destruct (process_all_trace _ _ _ _ Hb) as (_ & _ & Hn & _).
    destruct (process_all_tiled _ _ _ _ _ _ _ Hb) as (_ & _ & Hren).
    cbn [fresh suite_records map app] in Hn.
    rewrite Hren, length_map, <- (length_map clean_name), Hn, length_map. reflexivity. }
  split.
  - intros b Hinit. pose proof (init_inv _ _ _ _ _ _ _ Hinit) as Hb.
    split; [exact (Hsome b Hb)|].
    unfold __init__ in Hinit. rewrite Hb in Hinit. cbn [bind] in Hinit.
    pose proof (Hnames b Hb) as Hlen.
    destruct (filter (has_ordinary findall_tests) (scan top)) as [|t l] eqn:Ef.
    + destruct (suites b); [discriminate Hinit|discriminate Hlen].
    + exists t.
      assert (Hin : In t (filter (has_ordinary findall_tests) (scan top)))
        by (rewrite Ef; left; reflexivity).
      apply filter_In in Hin. exact Hin.
  - intros Hinit t Ht. unfold __init__ in Hinit.
    destruct (process_all findall_tests (fresh folder out cp pm) (scan top))
      as [b|e] eqn:Hb.
    + cbn [bind] in Hinit. split; [exact (Hsome b eq_refl t Ht)|].
      pose proof (Hnames b eq_refl) as Hlen.
      destruct (suites b); [|discriminate Hinit].
      destruct (has_ordinary findall_tests t) eqn:Eh; [|reflexivity].
      assert (Hin : In t (filter (has_ordinary findall_tests) (scan top)))
        by (apply filter_In; split; assumption).
      destruct (filter (has_ordinary findall_tests) (scan top));
        [destruct Hin|discriminate Hlen].
    + cbn [bind] in Hinit. injection Hinit as ->.
      apply process_all_raises in Hb. discriminate Hb.
Qed.

(** X10. A call of [_process_test_file] only appends: what was declared and
    registered before is still there, in place; at most one suite is
    added, and the suite table and the list of names grow together. *)
Theorem process_test_file_appends findall_tests self name contents b :
  _process_test_file findall_tests self name contents = Ok b ->
  extends (declarations self) (declarations b) /\
  extends (callbacks self) (callbacks b) /\
  extends (suites self) (suites b) /\
  extends (suite_list self) (suite_list b) /\
  length (suites b) <= S (length (suites self)) /\
  length (suites b) - length (suites self)
    = length (suite_list b) - length (suite_list self).
Proof.
  intros Hrun. destruct (process_inv _ _ _ _ _ Hrun) as [ms Hms].
  rewrite (process_eq _ _ _ _ _ Hms) in Hrun. injection Hrun as <-.
  destruct (filter is_ordinary ms) as [|m0 ms0];
    cbn [declarations callbacks suites suite_list].
  - repeat split; try (eexists; reflexivity); try (exists []; symmetry; apply app_nil_r).
    + lia.
    + lia.
  - repeat split; try (eexists; reflexivity).
    + rewrite length_app. simpl. lia.
    + rewrite !length_app. simpl. lia.
Qed.

(** ** Further properties: the scan and the group names *)

Lemma os_walk_complete top path f c :
  file_at top path f c ->
  forall root, exists ds fs,
    In (root ++ path, ds, fs) (os_walk root top) /\ In (f, c) fs.
Proof.
  induction 1 as [entries f c Hin|entries d n ds f c Hin Hfile IH]; intros root.
  - exists (dirs_of entries), (files_of entries). split.
    + cbn [os_walk]. left. rewrite app_nil_r. reflexivity.
    + unfold files_of. apply in_flat_map. exists (f, File c).
      split; [exact Hin|left; reflexivity].
  - destruct (IH (root ++ [d])) as (ds' & fs & Hitem & Hf).
    exists ds', fs. split; [|exact Hf].
    cbn [os_walk]. right. apply in_flat_map. exists (d, n). split; [exact Hin|].
    destruct n as [c'|es]; [inversion Hfile|].
    rewrite <- app_assoc in Hitem. exact Hitem.
Qed.

(** X11. The scan reads the files whose names end in [.c], at any depth below
    the root, and no other: a scanned text is the text of such a file,
    under the group name of its path, and every such file is scanned. *)
Theorem scan_reads_the_c_files top name contents :
  In (name, contents) (scan top) <->
  exists ds f,
    file_at top ds f contents /\
    Py.endswith f ".c" = true /\
    name = test_name_of (filter (fun c => negb (String.eqb c "")) ds) f.
Proof.
  unfold scan. rewrite in_flat_map. split.
  - intros ([[r dirs] fs] & Hitem & Hin).
    destruct (os_walk_files _ _ _ _ _ Hitem) as (path & Hr & Hfiles).
    simpl in Hr. subst r. unfold tests_of_item in Hin.
    apply in_map_iff in Hin. destruct Hin as ([f c] & Heq & Hf).
    injection Heq as <- <-. apply filter_In in Hf. destruct Hf as [Hf Hc].
    exists path, f. split; [apply Hfiles, Hf|]. split; [exact Hc|reflexivity].
  - intros (ds & f & Hfile & Hc & ->).
    destruct (os_walk_complete _ _ _ _ Hfile []) as (dirs & fs & Hitem & Hf).
    exists (ds, dirs, fs). split; [exact Hitem|].
    unfold tests_of_item. apply in_map_iff. exists (f, contents).
    split; [reflexivity|]. apply filter_In. split; [exact Hf|exact Hc].
Qed.

Lemma length_append (a b : string) :
  String.length (a +++ b) = String.length a + String.length b.
Proof. induction a as [|x a IH]; [reflexivity|]. simpl. rewrite IH. reflexivity. Qed.

Lemma substring_all (s : string) : substring 0 (String.length s) s = s.
Proof. induction s as [|c s IH]; [reflexivity|]. simpl. rewrite IH. reflexivity. Qed.

Lemma substring_append_left (a b : string) :
  substring 0 (String.length a) (a +++ b) = a.
Proof.
  induction a as [|c a IH]; [destruct b; reflexivity|].
  simpl. rewrite IH. reflexivity.
Qed.

Lemma substring_append_right (a b : string) n :
  substring (String.length a) n (a +++ b) = substring 0 n b.
Proof. induction a as [|c a IH]; [reflexivity|]. simpl. exact IH. Qed.

Lemma drop_last_append (p suffix : string) :
  Py.drop_last (String.length suffix) (p +++ suffix) = p.
Proof.
  unfold Py.drop_last. rewrite length_append.
  replace (String.length p + String.length suffix - String.length suffix)
    with (String.length p) by lia.
  apply substring_append_left.
Qed.

Lemma endswith_append (p suffix : string) : Py.endswith (p +++ suffix) suffix = true.
Proof.
  unfold Py.endswith. rewrite length_append.
  replace (String.length p + String.length suffix - String.length suffix)
    with (String.length p) by lia.
  rewrite substring_append_right, substring_all, String.eqb_refl.
  apply andb_true_iff. split; [apply Nat.leb_le; lia|reflexivity].
Qed.

Lemma join_last_two sep (l : list string) a b :
  Py.join sep (l ++ [a; b]) = Py.join sep (l ++ [a +++ sep +++ b]).
Proof.
  unfold Py.join. induction l as [|x l IH]; [reflexivity|].
  cbn [app]. destruct l as [|y l]; [reflexivity|].
  cbn [app String.concat] in *. rewrite IH. reflexivity.
Qed.

(** X12. The group name does not tell a directory from an underscore in a file
    name: a file [f] in a directory [d] and a file named [d_f] beside that
    directory are both scanned, under the same group name. *)
Theorem group_names_collide ds d f :
  fnmatch_c f = true ->
  fnmatch_c (d +++ "_" +++ f) = true /\
  test_name_of (ds ++ [d]) f = test_name_of ds (d +++ "_" +++ f).
Proof.
  unfold fnmatch_c. intros Hf.
  pose proof (endswith_split f ".c" Hf) as Hs. cbn [String.length] in Hs.
  set (stem := Py.drop_last 2 f) in *.
  assert (Hn : d +++ "_" +++ f = (d +++ "_" +++ stem) +++ ".c").
  { rewrite Hs at 1. rewrite !append_assoc. reflexivity. }
  split.
  - rewrite Hn. apply endswith_append.
  - unfold test_name_of. fold stem. rewrite Hn.
    pose proof (drop_last_append (d +++ "_" +++ stem) ".c") as Hd.
    cbn [String.length] in Hd. rewrite Hd.
    rewrite <- app_assoc. cbn [app]. apply join_last_two.
Qed.

(** X13. A display name has no underscore left in it; with the selector
    string made of them, no underscore ever reaches the selector. *)
Theorem display_names_have_no_underscore
  findall_tests folder top out cp pm b name :
  __init__ findall_tests folder top out cp pm = Ok b ->
  In name (suite_list b) ->
  ~ In "_"%char (Py.chars name) /\
  exists t, In t (scan top) /\ name = Py.replace "_" "::" (fst t).
Proof.
  intros Hb Hin. apply init_inv in Hb.
  destruct (process_all_trace _ _ _ _ Hb) as (_ & Hl & _).
  cbn [fresh suite_list app] in Hl. rewrite Hl in Hin.
  apply in_map_iff in Hin. destruct Hin as (t & <- & Ht).
  apply filter_In in Ht. split; [|exists t; split; [apply Ht|reflexivity]].
  rewrite replace_underscores. intros H. apply in_flat_map in H.
  destruct H as (c & _ & Hc).
  destruct (c =? "_")%char eqn:E.
  - simpl in Hc. destruct Hc as [Hc|[Hc|[]]]; discriminate Hc.
  - simpl in Hc. destruct Hc as [Hc|[]]. subst c. discriminate E.
Qed.

(** ** Further properties: stripping *)

Lemma lstrip_spaces_app pre l :
  spaces pre -> Py.lstrip_chars (pre ++ l) = Py.lstrip_chars l.
Proof.
  induction 1 as [|c pre Hc Hpre IH]; [reflexivity|].
  cbn [app Py.lstrip_chars]. rewrite Hc. exact IH.
Qed.

Lemma lstrip_head a l : Py.is_space a = false -> Py.lstrip_chars (a :: l) = a :: l.
Proof. intros H. cbn [Py.lstrip_chars]. rewrite H. reflexivity. Qed.

Lemma strip_framed pre a mid b post :
  spaces pre -> spaces post -> Py.is_space a = false -> Py.is_space b = false ->
  rev (Py.lstrip_chars (rev (Py.lstrip_chars (pre ++ a :: mid ++ b :: post))))
  = a :: mid ++ [b].
Proof.
  intros Hpre Hpost Ha Hb.
  rewrite lstrip_spaces_app, lstrip_head by assumption.
  replace (rev (a :: mid ++ b :: post)) with (rev post ++ b :: rev mid ++ [a]).
  2:{ cbn [rev]. rewrite rev_app_distr. cbn [rev]. rewrite <- !app_assoc. reflexivity. }
  rewrite lstrip_spaces_app, lstrip_head by (try apply Forall_rev; assumption).
  cbn [rev]. rewrite rev_app_distr, rev_involutive. reflexivity.
Qed.

Lemma str_app l1 l2 : Py.str (l1 ++ l2) = Py.str l1 +++ Py.str l2.
Proof. induction l1 as [|c l1 IH]; [reflexivity|]. simpl. rewrite IH. reflexivity. Qed.

Lemma str_chars s : Py.str (Py.chars s) = s.
Proof. apply string_of_list_ascii_of_string. Qed.


(** X14. The text of a suite in the suite table: [strip] takes away the white
    space at the two ends of the template and nothing of what was
    substituted, whatever the display name and the hooks are. *)
Theorem render_suite_text s :
  render_suite s =
  "{" +++ Py.nl
  +++ "        " +++ Py.dq +++ clean_name s +++ Py.dq +++ "," +++ Py.nl
  +++ "        " +++ initialize s +++ "," +++ Py.nl
  +++ "        " +++ cleanup s +++ "," +++ Py.nl
  +++ "        &_all_callbacks[" +++ Py.str_of_nat (cb_offset s) +++ "], "
  +++ Py.str_of_nat (cb_count s) +++ Py.nl
  +++ "    }".
Proof.
  set (body :=
         Py.nl
         +++ "        " +++ Py.dq +++ clean_name s +++ Py.dq +++ "," +++ Py.nl
         +++ "        " +++ initialize s +++ "," +++ Py.nl
         +++ "        " +++ cleanup s +++ "," +++ Py.nl
         +++ "        &_all_callbacks[" +++ Py.str_of_nat (cb_offset s) +++ "], "
         +++ Py.str_of_nat (cb_count s) +++ Py.nl +++ "    ").
  assert (Ht : TEMPLATE_SUITE_substitute (clean_name s) (initialize s) (cleanup s)
                 ("&_all_callbacks[" +++ Py.str_of_nat (cb_offset s) +++ "]")
                 (cb_count s)
               = (Py.nl +++ "    ") +++ String "{" (body +++ String "}" Py.nl)).
  { unfold TEMPLATE_SUITE_substitute, Py.join, body. cbn [String.concat].
    rewrite !append_assoc. reflexivity. }
  unfold render_suite. rewrite Ht. unfold Py.strip.
  rewrite (chars_append (Py.nl +++ "    ")).
  change (Py.chars (String "{" (body +++ String "}" Py.nl)))
    with ("{"%char :: Py.chars (body +++ String "}" Py.nl)).
  rewrite (chars_append body).
  change (Py.chars (String "}" Py.nl)) with ("}"%char :: Py.chars Py.nl).
  rewrite (strip_framed (Py.chars (Py.nl +++ "    ")) "{" (Py.chars body)
             "}" (Py.chars Py.nl));
    [|repeat constructor|repeat constructor|reflexivity|reflexivity].
  change (Py.str ("{"%char :: Py.chars body ++ ["}"%char]))
    with (String "{" (Py.str (Py.chars body ++ ["}"%char]))).
  rewrite str_app, str_chars. unfold body.
  rewrite !append_assoc. reflexivity.
Qed.

(** ** Further properties: [_parse_comment] *)












(** ** Further properties: which error a missing library file gives *)

(** X16. With a known print mode and a support library configured at [d], the
    error of a run that builds names the first module that cannot be
    read: [clay.c] before [clay_sandbox.c]; the header is not looked at
    before both were read. *)
Theorem library_error_names_first_unreadable
  findall_tests env out d pm folder top b clay_print :
  d <> "" ->
  __init__ findall_tests folder top out (Some d) pm = Ok b ->
  _get_print_method b = Ok clay_print ->
  (read_file env (path_join d "clay.c") = None ->
   main_folder findall_tests env out (Some d) pm folder top
     = ([], Raise (IOError (path_join d "clay.c")))) /\
  (forall lib1,
     read_file env (path_join d "clay.c") = Some lib1 ->
     read_file env (path_join d "clay_sandbox.c") = None ->
     main_folder findall_tests env out (Some d) pm folder top
       = ([], Raise (IOError (path_join d "clay_sandbox.c")))).
Proof.
  intros Hd Hb Hpr.
  destruct (init_config _ _ _ _ _ _ _ Hb) as (Hpath & _ & _ & _ & Hmod).
  cbn [fresh clay_path modules] in Hpath, Hmod.
  unfold main_folder. rewrite Hb. unfold render. rewrite Hpr. cbn [bind].
  unfold _get_library. rewrite Hmod. cbn [load_all].
  rewrite !(load_file_configured env b d) by assumption.
  split.
  - intros ->. reflexivity.
  - intros lib1 -> ->. reflexivity.
Qed.

(** ** Worked instances of the further properties *)

Lemma unknown_print_mode_detected_at_render_witness :
  ~ known_print_mode "loud" /\
  main_folder regex_findall sample_env_nothing None (Some "/lib") "loud"
    "/t" sample_tree = ([], Raise (KeyError "loud")).
Proof.
  assert (Hpm : ~ known_print_mode "loud") by (intros [H|[H|H]]; discriminate H).
  split; [exact Hpm|].
  destruct (unknown_print_mode_detected_at_render regex_findall sample_env_nothing
              None (Some "/lib") "loud" "/t" sample_tree Hpm) as [_ H].
  eapply H. vm_compute. reflexivity.
Defined.

Lemma bundled_library_reads_no_file_witness :
  configured (Some "") = None /\
  main_folder regex_findall sample_env_nothing None (Some "") "silent"
    "/t" sample_tree
  = main_folder regex_findall sample_env_no_header None (Some "") "silent"
      "/t" sample_tree.
Proof.
  split; [reflexivity|].
  apply (bundled_library_reads_no_file regex_findall None (Some "") "silent"
           "/t" sample_tree eq_refl).
  reflexivity.
Defined.

Lemma main_stops_at_first_failure_witness :
  exists evs,
    main regex_findall sample_env_nothing None None "stdout"
      [("/t", sample_tree); ("/e", Dir []); ("/u", sample_tree_hooks)]
    = (evs, Raise (NoTestsFound "/e")) /\
    map (fun ev => match ev with FileOpen p => p | FileWrite p _ => p end) evs
    = ["/t/clay_main.c"; "/t/clay_main.c"; "/t/clay.h"; "/t/clay.h"].
Proof.
  eexists. split.
  - apply (main_stops_at_first_failure regex_findall sample_env_nothing None None
             "stdout" [("/t", sample_tree)] "/e" (Dir []) [("/u", sample_tree_hooks)]
             [] (NoTestsFound "/e")).
    + constructor; [vm_compute; reflexivity|constructor].
    + vm_compute. reflexivity.
  - vm_compute. reflexivity.
Defined.

Lemma main_all_folders_witness :
  exists evs,
    main regex_findall sample_env_nothing (Some "/out") None "stdout"
      [("/t", sample_tree); ("/u", sample_tree_hooks)]
    = (evs, Ok tt) /\
    map (fun ev => match ev with FileOpen p => p | FileWrite p _ => p end) evs
    = ["/out/clay_main.c"; "/out/clay_main.c"; "/out/clay.h"; "/out/clay.h";
       "/out/clay_main.c"; "/out/clay_main.c"; "/out/clay.h"; "/out/clay.h"].
Proof.
  eexists. split.
  - apply (main_all_folders regex_findall sample_env_nothing (Some "/out") None
             "stdout" [("/t", sample_tree); ("/u", sample_tree_hooks)]).
    repeat (constructor; [vm_compute; reflexivity|]). constructor.
  - vm_compute. reflexivity.
Defined.

Lemma output_paths_witness :
  exists b1 b2,
    __init__ regex_findall "/t" sample_tree (Some "/out") None "stdout" = Ok b1 /\
    __init__ regex_findall "/u" sample_tree_hooks (Some "/out") None "stdout" = Ok b2 /\
    output b1 = "/out/clay_main.c" /\ output b2 = "/out/clay_main.c" /\
    output_header b1 = "/out/clay.h" /\ output_header b2 = "/out/clay.h".
Proof.
  eexists. eexists.
  split; [vm_compute; reflexivity|]. split; [vm_compute; reflexivity|].
  destruct (output_paths regex_findall "/t" sample_tree (Some "/out") None "stdout" _
              ltac:(vm_compute; reflexivity)) as [H1 H2].
  destruct (output_paths regex_findall "/u" sample_tree_hooks (Some "/out") None
              "stdout" _ ltac:(vm_compute; reflexivity)) as [H3 H4].
  repeat split; assumption.
Defined.

Lemma suite_owns_its_window_witness :
  exists b s,
    __init__ regex_findall "/t" sample_tree None None "stdout" = Ok b /\
    nth_error (suite_records b) 1 = Some s /\
    exists name contents ms,
      nth_error (filter (has_ordinary regex_findall) (scan sample_tree)) 1
        = Some (name, contents) /\
      regex_findall name contents = Some ms /\
      clean_name s = Py.replace "_" "::" name /\
      window s (callbacks b) = map (ptr_of 1) (filter is_ordinary ms) /\
      initialize s = last (map (ptr_of 1) (filter is_initialize ms)) NULL_FUNC /\
      cleanup s = last (map (ptr_of 1) (filter is_cleanup ms)) NULL_FUNC.
Proof.
  eexists. eexists.
  split; [vm_compute; reflexivity|]. split; [reflexivity|].
  apply (suite_owns_its_window regex_findall "/t" sample_tree None None "stdout" _ 1).
  - vm_compute. reflexivity.
  - reflexivity.
Defined.

Lemma table_sizes_and_bounds_witness :
  exists b,
    __init__ regex_findall "/t" sample_tree None None "stdout" = Ok b /\
    a_cb_count (main_args_of b "" "") = 3 /\
    a_cb_count (main_args_of b "" "") = list_sum (map cb_count (suite_records b)) /\
    a_suite_count (main_args_of b "" "") = length (suite_records b).
Proof.
  eexists. split; [vm_compute; reflexivity|]. split; [reflexivity|].
  destruct (table_sizes_and_bounds regex_findall "/t" sample_tree None None "stdout"
              _ "" "" ltac:(vm_compute; reflexivity)) as (H1 & H2 & _).
  split; assumption.
Defined.

Lemma process_test_file_appends_witness :
  exists self b,
    _process_test_file regex_findall (fresh "/t" None None "stdout") "c" sample_c_c
      = Ok self /\
    declarations self <> [] /\ callbacks self <> [] /\
    suites self <> [] /\ suite_list self <> [] /\
    _process_test_file regex_findall self "a_b" sample_b_c = Ok b /\
    extends (declarations self) (declarations b) /\
    extends (callbacks self) (callbacks b) /\
    extends (suites self) (suites b) /\
    extends (suite_list self) (suite_list b) /\
    length (suites b) <= S (length (suites self)) /\
    length (suites b) - length (suites self)
      = length (suite_list b) - length (suite_list self).
Proof.
  eexists. eexists.
  split; [vm_compute; reflexivity|].
  do 4 (split; [discriminate|]).
  split; [vm_compute; reflexivity|].
  apply (process_test_file_appends regex_findall _ "a_b" sample_b_c).
  vm_compute. reflexivity.
Defined.

Lemma group_names_collide_witness :
  fnmatch_c "b.c" = true /\
  fnmatch_c "a_b.c" = true /\
  test_name_of ["a"] "b.c" = test_name_of [] "a_b.c".
Proof.
  split; [reflexivity|].
  apply (group_names_collide [] "a" "b.c"). reflexivity.
Defined.

Lemma display_names_have_no_underscore_witness :
  exists b,
    __init__ regex_findall "/t" sample_tree None None "stdout" = Ok b /\
    In "a::b" (suite_list b) /\
    ~ In "_"%char (Py.chars "a::b").
Proof.
  eexists. split; [vm_compute; reflexivity|].
  split; [right; left; reflexivity|].
  apply (display_names_have_no_underscore regex_findall "/t" sample_tree None None
           "stdout" _ "a::b" ltac:(vm_compute; reflexivity)).
  right. left. reflexivity.
Defined.

Lemma library_error_names_first_unreadable_witness :
  exists b,
    __init__ regex_findall "/t" sample_tree None (Some "/lib") "stdout" = Ok b /\
    main_folder regex_findall sample_env_nothing None (Some "/lib") "stdout"
      "/t" sample_tree = ([], Raise (IOError "/lib/clay.c")).
Proof.
  eexists. split; [vm_compute; reflexivity|].
  destruct (library_error_names_first_unreadable regex_findall sample_env_nothing
              None "/lib" "stdout" "/t" sample_tree _ "printf(__VA_ARGS__)"
              ltac:(discriminate) ltac:(vm_compute; reflexivity) eq_refl) as [H _].
  apply H. reflexivity.
Defined.

